(** * TechGlossary: filtering, navigation history and its persisted mirror

    A shallow embedding of [glossary.js] (class [TechGlossary]) together
    with the properties of its filter engine, its navigation history and
    the session-storage mirror of that history.

    Modelling conventions.
    - A JavaScript string is a [string] whose characters are the
      string's UTF-16 code units, each below 0x100: the model holds the
      texts of U+0000 to U+00FF (Latin-1) and is exact on them; a text
      with a code unit above 0xFF is outside the model. A literal of this
      file is read byte by byte, so a character above 0x7F is written by
      its code, as in [String (ascii_of_nat 201) "CLAIR"].
    - [null] and [undefined] are kept apart where the code tells them
      apart ([JsRef]); a nullable field is an [option].
    - The instance fields and the part of the browser the class talks to
      (sessionStorage, the console, the two breadcrumb elements) live in
      one record [State]; a method is a function on [State].
    - A method that can leave by an exception returns a [Completion],
      which keeps the state reached when the exception was raised. *)

From Stdlib Require Import String Ascii List Bool ZArith Lia DecimalString.
From stdpp Require Import base option list strings gmap.
Import ListNotations.

Local Open Scope string_scope.
Local Open Scope list_scope.

(** String concatenation unfolds on a constructor under [simpl]. *)
#[local] Arguments String.append !_ _ / : simpl nomatch.

(** ** Strings *)

Module Js.

(** [toLowerCase] on one code unit below 0x100: the letters A to Z and
    the capital letters of U+00C0 to U+00DE (the multiplication sign
    U+00D7 is no letter) move up by 0x20, everything else stays; no
    character of this range lowercases to more than one code unit or
    depends on its neighbours. *)
Definition toLowerCodeUnit (c : ascii) : ascii :=
  let n := nat_of_ascii c in
  if (65 <=? n)%nat && (n <=? 90)%nat then ascii_of_nat (n + 32)
  else if (192 <=? n)%nat && (n <=? 222)%nat && negb (n =? 215)%nat
       then ascii_of_nat (n + 32)
  else c.

(** [String.prototype.toLowerCase]. *)
Fixpoint toLowerCase (s : string) : string :=
  match s with
  | EmptyString => EmptyString
  | String c r => String (toLowerCodeUnit c) (toLowerCase r)
  end.

(** [s.startsWith(q)]; the helper [includes] is built from. *)
Fixpoint startsWith (s q : string) {struct q} : bool :=
  match q, s with
  | EmptyString, _ => true
  | String _ _, EmptyString => false
  | String b q', String a s' => Ascii.eqb a b && startsWith s' q'
  end.

(** [String.prototype.includes]: [q] occurs in [s] as a contiguous run. *)
Fixpoint includes (s q : string) : bool :=
  startsWith s q ||
  match s with
  | EmptyString => false
  | String _ s' => includes s' q
  end.

(** Truthiness of a string: only the empty string is falsy. *)
Definition truthy (s : string) : bool :=
  match s with
  | EmptyString => false
  | String _ _ => true
  end.

End Js.

(** ** JSON text of a trail

    [JSON.stringify] on an array of strings and [JSON.parse] on the text
    kept under the history key. The parser accepts a JSON array of string
    literals (with insignificant white space); [None] stands for a
    [SyntaxError] and also for a text whose value is not a list of
    strings in the model (another JSON type, or a [\u] escape beyond
    0xFF), which the typed trail cannot hold. *)

Module JSON.

(** The double quote character. *)
Definition dquote : ascii := ascii_of_nat 34.

Definition hexDigit (n : nat) : ascii :=
  if (n <? 10)%nat then ascii_of_nat (48 + n) else ascii_of_nat (87 + n).

(** QuoteJSONString, one character. *)
Definition escapeChar (c : ascii) : string :=
  let n := nat_of_ascii c in
  if (n =? 34)%nat then String "\" (String dquote EmptyString)
  else if (n =? 92)%nat then "\\"
  else if (n =? 8)%nat then "\b"
  else if (n =? 9)%nat then "\t"
  else if (n =? 10)%nat then "\n"
  else if (n =? 12)%nat then "\f"
  else if (n =? 13)%nat then "\r"
  else if (n <? 32)%nat then
    String "\" (String "u" (String "0" (String "0"
      (String (hexDigit (n / 16)) (String (hexDigit (n mod 16)) EmptyString)))))
  else String c EmptyString.

Fixpoint escape (s : string) : string :=
  match s with
  | EmptyString => EmptyString
  | String c r => escapeChar c ++ escape r
  end.

Definition quote (s : string) : string :=
  String dquote (escape s ++ String dquote EmptyString).

Fixpoint elements (l : list string) : string :=
  match l with
  | [] => EmptyString
  | [x] => quote x
  | x :: r => quote x ++ String "," (elements r)
  end.

(** [JSON.stringify(arr)] for an array of strings. *)
Definition stringify (l : list string) : string :=
  String "[" (elements l ++ String "]" EmptyString).

(** Where the reader stands in the text. *)
Inductive Pos :=
| AtStart
| AfterOpen
| AfterComma
| InString (cur : string)
| InEscape (cur : string)
| InUnicode (cur : string) (todo : nat) (value : nat)
| AfterElement
| AtEnd.

Definition isSpace (c : ascii) : bool :=
  let n := nat_of_ascii c in
  (n =? 32)%nat || (n =? 9)%nat || (n =? 10)%nat || (n =? 13)%nat.

Definition hexValue (c : ascii) : option nat :=
  let n := nat_of_ascii c in
  if (48 <=? n)%nat && (n <=? 57)%nat then Some (n - 48)
  else if (97 <=? n)%nat && (n <=? 102)%nat then Some (n - 87)
  else if (65 <=? n)%nat && (n <=? 70)%nat then Some (n - 55)
  else None.

Definition snoc (s : string) (c : ascii) : string := s ++ String c EmptyString.

Definition unescape (c : ascii) : option ascii :=
  let n := nat_of_ascii c in
  if (n =? 34)%nat then Some c
  else if (n =? 92)%nat then Some c
  else if (n =? 47)%nat then Some c
  else if (n =? 98)%nat then Some (ascii_of_nat 8)
  else if (n =? 102)%nat then Some (ascii_of_nat 12)
  else if (n =? 110)%nat then Some (ascii_of_nat 10)
  else if (n =? 114)%nat then Some (ascii_of_nat 13)
  else if (n =? 116)%nat then Some (ascii_of_nat 9)
  else None.

Fixpoint read (p : Pos) (acc : list string) (s : string) : option (list string) :=
  match s with
  | EmptyString => match p with AtEnd => Some acc | _ => None end
  | String c r =>
    let n := nat_of_ascii c in
    match p with
    | AtStart =>
      if isSpace c then read AtStart acc r
      else if (n =? 91)%nat then read AfterOpen acc r else None
    | AfterOpen =>
      if isSpace c then read AfterOpen acc r
      else if (n =? 34)%nat then read (InString EmptyString) acc r
      else if (n =? 93)%nat then read AtEnd acc r else None
    | AfterComma =>
      if isSpace c then read AfterComma acc r
      else if (n =? 34)%nat then read (InString EmptyString) acc r else None
    | InString cur =>
      if (n =? 34)%nat then read AfterElement (acc ++ [cur]) r
      else if (n =? 92)%nat then read (InEscape cur) acc r
      else if (n <? 32)%nat then None
      else read (InString (snoc cur c)) acc r
    | InEscape cur =>
      if (n =? 117)%nat then read (InUnicode cur 4 0) acc r
      else match unescape c with
           | Some d => read (InString (snoc cur d)) acc r
           | None => None
           end
    | InUnicode cur todo value =>
      match hexValue c with
      | None => None
      | Some d =>
        let v := (16 * value + d)%nat in
        match todo with
        | S (S k) => read (InUnicode cur (S k) v) acc r
        | _ => if (v <? 256)%nat then read (InString (snoc cur (ascii_of_nat v))) acc r
               else None
        end
      end
    | AfterElement =>
      if isSpace c then read AfterElement acc r
      else if (n =? 44)%nat then read AfterComma acc r
      else if (n =? 93)%nat then read AtEnd acc r else None
    | AtEnd => if isSpace c then read AtEnd acc r else None
    end
  end.

(** [JSON.parse(text)], see the note at the head of the module. *)
Definition parse (text : string) : option (list string) := read AtStart [] text.

End JSON.

(** ** Data model *)

Record GlossaryTerm := {
  id : string;
  term : string;
  fullForm : option string;
  definition : string;
  category : string;
  relatedTerms : list string;
  examples : list string
}.

Record GlossaryData := {
  terms : list GlossaryTerm;
  categories : list string
}.

(** What an array slot of [renderBreadcrumb] can hold: [null],
    [undefined] (what [Array.prototype.find] gives on a miss) or a term. *)
Inductive JsRef :=
| JsNull
| JsUndefined
| JsTerm (t : GlossaryTerm).

(** The text serialization behind [escapeHtml]: the method sets the text
    as [textContent] of a fresh element and reads [innerHTML] back, which
    writes a text node with [&], [<], [>] and the no-break space (0xA0)
    replaced by character references and every other character as it is. *)
Definition escapeHtmlChar (c : ascii) : string :=
  let n := nat_of_ascii c in
  if (n =? 38)%nat then "&amp;"
  else if (n =? 60)%nat then "&lt;"
  else if (n =? 62)%nat then "&gt;"
  else if (n =? 160)%nat then "&nbsp;"
  else String c EmptyString.

Fixpoint escapeHtml (text : string) : string :=
  match text with
  | EmptyString => EmptyString
  | String c r => escapeHtmlChar c ++ escapeHtml r
  end.

(** One item of the markup [renderBreadcrumb] writes into
    [breadcrumbItems.innerHTML]: a link back to a term, or the current
    (last) item. [dataTermId] is the text the template puts between the
    quotes of [data-term-id] (the term's [id] as it is, not escaped) and
    [text] the text it puts inside the item ([escapeHtml(term.term)]).
    This is the markup as written; what the browser's parser makes of an
    attribute text holding a quote or a character reference is beyond it. *)
Inductive Crumb :=
| CrumbLink (dataTermId text : string)
| CrumbCurrent (text : string).

(** The two elements [renderBreadcrumb] needs. [None]: the element
    reference is [null]. [breadcrumbNav = Some h]: present, [h] tells
    whether it carries the class [hidden]. [breadcrumbItems = Some l]:
    present, its content is the items [l]. *)
Record Elements := {
  breadcrumbNav : option bool;
  breadcrumbItems : option (list Crumb)
}.

(** [sessionStorage]: the stored items, and whether [setItem] raises
    (quota exceeded). *)
Record Storage := {
  items : gmap string string;
  quotaExceeded : bool
}.

Inductive LogEntry :=
| WarnLoadHistory
| WarnSaveHistory
| WarnTermNotFound (termId : string).

Record State := {
  data : option GlossaryData;
  filteredTerms : list GlossaryTerm;
  currentCategory : string;
  searchQuery : string;
  navigationHistory : list string;
  elements : Elements;
  sessionStorage : Storage;
  console : list LogEntry
}.

(** How a method call ends: it returns, or it leaves by an exception;
    either way the mutations made so far stay. *)
Inductive Completion :=
| Normal (s : State)
| Throw (s : State).

Definition stateOf (c : Completion) : State :=
  match c with Normal s => s | Throw s => s end.

Definition returns (c : Completion) : bool :=
  match c with Normal _ => true | Throw _ => false end.

Definition andThen (c : Completion) (k : State -> Completion) : Completion :=
  match c with
  | Normal s => k s
  | Throw s => Throw s
  end.

Notation "c >>> k" := (andThen c k) (at level 50, left associativity).

(** Field updates. *)
Definition setFilteredTerms (l : list GlossaryTerm) (s : State) : State :=
  {| data := data s; filteredTerms := l; currentCategory := currentCategory s;
     searchQuery := searchQuery s; navigationHistory := navigationHistory s;
     elements := elements s; sessionStorage := sessionStorage s; console := console s |}.

Definition setCurrentCategory (c : string) (s : State) : State :=
  {| data := data s; filteredTerms := filteredTerms s; currentCategory := c;
     searchQuery := searchQuery s; navigationHistory := navigationHistory s;
     elements := elements s; sessionStorage := sessionStorage s; console := console s |}.

Definition setSearchQuery (q : string) (s : State) : State :=
  {| data := data s; filteredTerms := filteredTerms s; currentCategory := currentCategory s;
     searchQuery := q; navigationHistory := navigationHistory s;
     elements := elements s; sessionStorage := sessionStorage s; console := console s |}.

Definition setNavigationHistory (h : list string) (s : State) : State :=
  {| data := data s; filteredTerms := filteredTerms s; currentCategory := currentCategory s;
     searchQuery := searchQuery s; navigationHistory := h;
     elements := elements s; sessionStorage := sessionStorage s; console := console s |}.

Definition setElements (e : Elements) (s : State) : State :=
  {| data := data s; filteredTerms := filteredTerms s; currentCategory := currentCategory s;
     searchQuery := searchQuery s; navigationHistory := navigationHistory s;
     elements := e; sessionStorage := sessionStorage s; console := console s |}.

Definition setSessionStorage (st : Storage) (s : State) : State :=
  {| data := data s; filteredTerms := filteredTerms s; currentCategory := currentCategory s;
     searchQuery := searchQuery s; navigationHistory := navigationHistory s;
     elements := elements s; sessionStorage := st; console := console s |}.

Definition log (e : LogEntry) (s : State) : State :=
  {| data := data s; filteredTerms := filteredTerms s; currentCategory := currentCategory s;
     searchQuery := searchQuery s; navigationHistory := navigationHistory s;
     elements := elements s; sessionStorage := sessionStorage s;
     console := console s ++ [e] |}.

(** ** Browser and array primitives *)

Definition historyKey : string := "glossary-navigation-history".

Definition getItem (k : string) (st : Storage) : option string := items st !! k.

(** [None]: the call raised. *)
Definition setItem (k v : string) (st : Storage) : option Storage :=
  if quotaExceeded st then None
  else Some {| items := <[k := v]> (items st); quotaExceeded := quotaExceeded st |}.

(** [arr.indexOf(x)]: the first index holding [x], or [-1]. *)
Fixpoint indexOfFrom (i : Z) (x : string) (l : list string) : Z :=
  match l with
  | [] => (-1)%Z
  | y :: r => if String.eqb y x then i else indexOfFrom (i + 1)%Z x r
  end.

Definition indexOf (x : string) (l : list string) : Z := indexOfFrom 0%Z x l.

(** [arr.slice(b, e)], negative indices counting from the end. *)
Definition slice {A} (b e : Z) (l : list A) : list A :=
  let len := Z.of_nat (length l) in
  let k := if (b <? 0)%Z then Z.max (len + b) 0 else Z.min b len in
  let f := if (e <? 0)%Z then Z.max (len + e) 0 else Z.min e len in
  take (Z.to_nat (f - k)) (drop (Z.to_nat k) l).

(** [this.data.terms.find(t => t.id === termId)]; [None] is [undefined]. *)
Definition findById (termId : string) (d : GlossaryData) : option GlossaryTerm :=
  List.find (fun t => String.eqb (id t) termId) (terms d).

(** ** The class *)

(** [new TechGlossary()] in a browser whose storage and console are
    those of [env]: element references start out [null]. *)
Definition new_TechGlossary (env : State) : State :=
  {| data := None; filteredTerms := []; currentCategory := "all";
     searchQuery := EmptyString; navigationHistory := [];
     elements := {| breadcrumbNav := None; breadcrumbItems := None |};
     sessionStorage := sessionStorage env; console := console env |}.

Definition initializeHistory (s : State) : State :=
  match getItem historyKey (sessionStorage s) with
  | Some stored =>
    if Js.truthy stored then
      match JSON.parse stored with
      | Some l => setNavigationHistory l s
      | None => setNavigationHistory [] (log WarnLoadHistory s)
      end
    else s
  | None => s
  end.

Definition saveHistory (s : State) : State :=
  match setItem historyKey (JSON.stringify (navigationHistory s)) (sessionStorage s) with
  | Some st => setSessionStorage st s
  | None => log WarnSaveHistory s
  end.

(** The array [breadcrumbTerms] of [renderBreadcrumb]: [map] then
    [filter(term => term !== null)]. *)
Definition breadcrumbTerms (s : State) : list JsRef :=
  List.filter (fun r => match r with JsNull => false | _ => true end)
    (List.map (fun termId =>
                 match data s with
                 | None => JsNull
                 | Some d => match findById termId d with
                             | Some t => JsTerm t
                             | None => JsUndefined
                             end
                 end) (navigationHistory s)).

(** The items built by [breadcrumbTerms.map((term, index) => ...)], the
    entry at [index] of [total]; reading [term.term] of [null] or
    [undefined] is a [TypeError] ([None]). *)
Fixpoint renderCrumbs (index total : nat) (l : list JsRef) : option (list Crumb) :=
  match l with
  | [] => Some []
  | r :: rest =>
    match r with
    | JsTerm t =>
      let item := if (index =? total - 1)%nat then CrumbCurrent (escapeHtml (term t))
                  else CrumbLink (id t) (escapeHtml (term t)) in
      match renderCrumbs (S index) total rest with
      | Some out => Some (item :: out)
      | None => None
      end
    | _ => None
    end
  end.

Definition renderBreadcrumb (s : State) : Completion :=
  match breadcrumbNav (elements s), breadcrumbItems (elements s) with
  | Some _, Some shown =>
    if (length (navigationHistory s) =? 0)%nat then
      Normal (setElements {| breadcrumbNav := Some true; breadcrumbItems := Some shown |} s)
    else
      let s1 := setElements {| breadcrumbNav := Some false; breadcrumbItems := Some shown |} s in
      let bt := breadcrumbTerms s1 in
      match renderCrumbs 0 (length bt) bt with
      | Some out =>
        Normal (setElements {| breadcrumbNav := Some false; breadcrumbItems := Some out |} s1)
      | None => Throw s1
      end
  | _, _ => Normal s
  end.

Definition addToHistory (termId : string) (s : State) : Completion :=
  let h := navigationHistory s in
  if (0 <? length h)%nat &&
     match h !! (length h - 1)%nat with
     | Some x => String.eqb x termId
     | None => false
     end
  then Normal s
  else renderBreadcrumb (saveHistory (setNavigationHistory (h ++ [termId]) s)).

Definition clearHistory (s : State) : Completion :=
  renderBreadcrumb (saveHistory (setNavigationHistory [] s)).

Definition filterTerms (s : State) : list GlossaryTerm :=
  match data s with
  | None => []
  | Some d =>
    let filtered := terms d in
    let filtered :=
      if negb (String.eqb (currentCategory s) "all")
      then List.filter (fun t => String.eqb (category t) (currentCategory s)) filtered
      else filtered in
    let filtered :=
      if Js.truthy (searchQuery s)
      then List.filter (fun t =>
             Js.includes (Js.toLowerCase (term t)) (searchQuery s) ||
             Js.includes (Js.toLowerCase (definition t)) (searchQuery s) ||
             match fullForm t with
             | Some f => Js.truthy f && Js.includes (Js.toLowerCase f) (searchQuery s)
             | None => false
             end) filtered
      else filtered in
    filtered
  end.

(** [renderTerms] and [updateTermCount] only write to the page. *)
Definition filterAndRender (s : State) : State := setFilteredTerms (filterTerms s) s.

(** The history step of [navigateToTerm]. *)
Definition updateTrail (termId : string) (fromBreadcrumb : bool) (s : State) : Completion :=
  if fromBreadcrumb then
    let index := indexOf termId (navigationHistory s) in
    if negb (index =? -1)%Z
    then Normal (saveHistory
                   (setNavigationHistory (slice 0 (index + 1) (navigationHistory s)) s))
    else Normal s
  else addToHistory termId s.

(** [updateActiveFilterButton], the write to [searchInput.value] and
    [scrollToTerm] (two timers) only touch the page. *)
Definition navigateToTerm (termId : string) (fromBreadcrumb : bool) (s : State) : Completion :=
  match data s with
  | None => Normal s
  | Some d =>
    match findById termId d with
    | None => Normal (log (WarnTermNotFound termId) s)
    | Some _ =>
      updateTrail termId fromBreadcrumb s >>> fun s1 =>
      renderBreadcrumb (filterAndRender (setCurrentCategory "all" (setSearchQuery EmptyString s1)))
    end
  end.

Definition findTermIdByName (termName : string) (s : State) : option string :=
  match data s with
  | None => None
  | Some d =>
    match List.find (fun t => String.eqb (Js.toLowerCase (term t)) (Js.toLowerCase termName))
                    (terms d) with
    | Some t => Some (id t)
    | None => None
    end
  end.

(** The [input] listener of the search box. *)
Definition onSearchInput (value : string) (s : State) : State :=
  filterAndRender (setSearchQuery (Js.toLowerCase value) s).

(** The [click] listener of the category buttons. *)
Definition onCategoryClick (c : string) (s : State) : State :=
  filterAndRender (setCurrentCategory c s).

(** [init()] up to its [await], on a fresh instance and a page holding
    the elements [page]: [cacheElements], [initializeHistory],
    [attachEventListeners], [showLoading]. From here on the search box
    and the clear button are live while [data] is still [null]. *)
Definition initBegin (page : Elements) (s : State) : State :=
  initializeHistory (setElements page s).

(** [init()] from the end of [loadData] on. [loaded] is what the load
    ended with: [Some d], the payload with its terms sorted, or [None]
    when [fetch] raised, the status was not [ok] or the body was not
    JSON, all of which leave [data] as it was. [handleError] writes to
    the page only, and an exception of [renderBreadcrumb] ends there too.
    A payload that parses but has no [terms] array is assigned to
    [this.data] before [loadData] raises; such a value is no
    [GlossaryData], and a load ending that way is outside the model. *)
Definition initEnd (loaded : option GlossaryData) (s1 : State) : State :=
  match loaded with
  | None => s1
  | Some d =>
    let s2 := {| data := Some d; filteredTerms := filteredTerms s1;
                 currentCategory := currentCategory s1; searchQuery := searchQuery s1;
                 navigationHistory := navigationHistory s1; elements := elements s1;
                 sessionStorage := sessionStorage s1; console := console s1 |} in
    stateOf (renderBreadcrumb (filterAndRender s2))
  end.

(** [init()] when no listener fires while the data is loading. *)
Definition init (page : Elements) (loaded : option GlossaryData) (s : State) : State :=
  initEnd loaded (initBegin page s).

(** ** Sessions *)

(** What can happen to a page: a method call, a listener firing, or a
    reload within the same browser session (one during whose load no
    listener fires, see [init]). *)
Inductive Event :=
| CallNavigateToTerm (termId : string) (fromBreadcrumb : bool)
| CallAddToHistory (termId : string)
| CallClearHistory
| InputSearch (value : string)
| ClickCategory (c : string)
| Reload (page : Elements) (loaded : option GlossaryData).

(** An exception raised inside a listener is reported by the browser and
    the page lives on in the state reached. *)
Definition step (s : State) (e : Event) : State :=
  match e with
  | CallNavigateToTerm termId fromBreadcrumb => stateOf (navigateToTerm termId fromBreadcrumb s)
  | CallAddToHistory termId => stateOf (addToHistory termId s)
  | CallClearHistory => stateOf (clearHistory s)
  | InputSearch value => onSearchInput value s
  | ClickCategory c => onCategoryClick c s
  | Reload page loaded => init page loaded (new_TechGlossary s)
  end.

Definition run (s : State) (es : list Event) : State := fold_left step es s.

(** ** Presentation helpers *)

(** A non-negative integer inside a template literal. *)
Definition numberToString (n : nat) : string :=
  DecimalString.NilEmpty.string_of_uint (Nat.to_uint n).

(** The text [updateTermCount] writes into the count element. *)
Definition termCountText (s : State) : string :=
  let total := match data s with Some d => length (terms d) | None => 0%nat end in
  let filtered := length (filteredTerms s) in
  if (filtered =? total)%nat
  then numberToString total ++ " " ++ (if (total =? 1)%nat then "term" else "terms")
  else numberToString filtered ++ " of " ++ numberToString total ++ " " ++
       (if (total =? 1)%nat then "term" else "terms").

(** ** What the specification speaks of *)

(** [q] occurs in [s], letter case aside: some run of [s] equals [q]
    once both are lowercased. *)
Definition CaseInsensitiveSubstring (q s : string) : Prop :=
  exists pre mid post,
    s = (pre ++ mid ++ post)%string /\ Js.toLowerCase mid = Js.toLowerCase q.

(** A term matches a query on its name, its definition or its full form
    (a [null] full form takes no part). *)
Definition Matches (q : string) (t : GlossaryTerm) : Prop :=
  CaseInsensitiveSubstring q (term t) \/
  CaseInsensitiveSubstring q (definition t) \/
  exists f, fullForm t = Some f /\ CaseInsensitiveSubstring q f.

(** A query as the search listener stores it. *)
Definition Lowercased (q : string) : Prop := Js.toLowerCase q = q.

(** No two equal neighbours. *)
Inductive NoAdjacentDup : list string -> Prop :=
| nad_nil : NoAdjacentDup []
| nad_one x : NoAdjacentDup [x]
| nad_cons x y l : x <> y -> NoAdjacentDup (y :: l) -> NoAdjacentDup (x :: y :: l).

(** The display list as the specification words it: the trail's IDs
    mapped to their terms, an ID that resolves to none left out. *)
Definition toDisplayList (trail : list string) (d : GlossaryData) : list GlossaryTerm :=
  omap (fun termId => findById termId d) trail.

(** The trail a reload would restore from the storage. *)
Definition restored (st : Storage) : list string :=
  navigationHistory
    (initializeHistory
       {| data := None; filteredTerms := []; currentCategory := "all";
          searchQuery := EmptyString; navigationHistory := [];
          elements := {| breadcrumbNav := None; breadcrumbItems := None |};
          sessionStorage := st; console := [] |}).

(** What the class itself leaves under the history key: nothing, or the
    JSON text of a trail without equal neighbours. *)
Definition MirrorSound (st : Storage) : Prop :=
  match getItem historyKey st with
  | Some text => exists l, text = JSON.stringify l /\ NoAdjacentDup l
  | None => True
  end.

(** The invariant of the history: the trail in memory has no equal
    neighbours and neither has the trail kept in the storage. *)
Definition HistoryInv (s : State) : Prop :=
  NoAdjacentDup (navigationHistory s) /\ MirrorSound (sessionStorage s).

(** The stored mirror is in step with the trail: the storage accepts
    writes and holds, under the history key, the JSON text of the trail
    in memory (or nothing yet, while the trail is still empty). *)
Definition Mirrored (s : State) : Prop :=
  quotaExceeded (sessionStorage s) = false /\
  match getItem historyKey (sessionStorage s) with
  | Some text => text = JSON.stringify (navigationHistory s)
  | None => navigationHistory s = []
  end.

(** Every ID on the trail resolves in the loaded store. *)
Definition TrailResolves (s : State) : Prop :=
  forall D, data s = Some D ->
            Forall (fun termId => is_Some (findById termId D)) (navigationHistory s).

(** The events the page itself gives rise to: clicks and typing, and no
    reload and no direct call of [addToHistory]. *)
Definition fromPage (e : Event) : bool :=
  match e with
  | CallNavigateToTerm _ _ | CallClearHistory | InputSearch _ | ClickCategory _ => true
  | CallAddToHistory _ | Reload _ _ => false
  end.

(** The breadcrumb markup of a list of terms: links, the last one
    current, each with the escaped name as text and the raw [id] as the
    attribute text. *)
Fixpoint trailCrumbs (ts : list GlossaryTerm) : list Crumb :=
  match ts with
  | [] => []
  | [t] => [CrumbCurrent (escapeHtml (term t))]
  | t :: r => CrumbLink (id t) (escapeHtml (term t)) :: trailCrumbs r
  end.

(** The view on the page is the one the current filters give. *)
Definition ViewInSync (s : State) : Prop := filteredTerms s = filterTerms s.

(** The test [filterTerms] applies for a query, as a predicate. *)
Definition queryTest (q : string) (t : GlossaryTerm) : bool :=
  Js.includes (Js.toLowerCase (term t)) q ||
  Js.includes (Js.toLowerCase (definition t)) q ||
  match fullForm t with
  | Some f => Js.truthy f && Js.includes (Js.toLowerCase f) q
  | None => false
  end.

(** The four-term fixture of the test suite. *)
Module Fixture.

Definition api : GlossaryTerm :=
  {| id := "api"; term := "API"; fullForm := Some "Application Programming Interface";
     definition := "A set of protocols for building software applications";
     category := "Architecture"; relatedTerms := ["REST"; "GraphQL"];
     examples := ["REST API"; "GraphQL API"] |}.

Definition ci_cd : GlossaryTerm :=
  {| id := "ci-cd"; term := "CI/CD";
     fullForm := Some "Continuous Integration/Continuous Deployment";
     definition := "Automated software development practices";
     category := "DevOps"; relatedTerms := ["Jenkins"; "GitHub Actions"];
     examples := ["Automated testing"; "Automated deployment"] |}.

Definition docker : GlossaryTerm :=
  {| id := "docker"; term := "Docker"; fullForm := None;
     definition := "A platform for developing, shipping, and running applications in containers";
     category := "DevOps"; relatedTerms := ["Kubernetes"; "Container"];
     examples := ["Docker Compose"; "Dockerfile"] |}.

Definition rest : GlossaryTerm :=
  {| id := "rest"; term := "REST"; fullForm := Some "Representational State Transfer";
     definition := "An architectural style for distributed systems";
     category := "Architecture"; relatedTerms := ["API"; "HTTP"];
     examples := ["RESTful API"; "REST endpoints"] |}.

Definition dataset : GlossaryData :=
  {| terms := [api; ci_cd; docker; rest];
     categories := ["Architecture"; "DevOps"; "Security"] |}.

Definition emptyStorage : Storage := {| items := ∅; quotaExceeded := false |}.

(** A page with both breadcrumb elements, the trail hidden. *)
Definition page : Elements :=
  {| breadcrumbNav := Some true; breadcrumbItems := Some [] |}.

(** The instance of the tests' [beforeEach]: fixture data, no elements. *)
Definition glossary : State :=
  {| data := Some dataset; filteredTerms := []; currentCategory := "all";
     searchQuery := EmptyString; navigationHistory := [];
     elements := {| breadcrumbNav := None; breadcrumbItems := None |};
     sessionStorage := emptyStorage; console := [] |}.

(** The same instance on a page with the breadcrumb elements. *)
Definition onPage : State := setElements page glossary.

(** A later edition of the data file, the term [docker] removed. *)
Definition withoutDocker : GlossaryData :=
  {| terms := [api; ci_cd; rest];
     categories := ["Architecture"; "DevOps"; "Security"] |}.

(** A storage whose history key holds a trail with a repeated neighbour,
    as another script of the same origin could leave it. *)
Definition foreignStorage : Storage :=
  {| items := {[ historyKey := JSON.stringify ["api"; "api"] ]}; quotaExceeded := false |}.

(** Two terms are visited, then the page is reloaded and fetches the
    later edition. *)
Definition afterDataChange : State :=
  run onPage [CallNavigateToTerm "api" false; CallNavigateToTerm "docker" false;
              Reload page (Some withoutDocker)].

(** The page after that reload, with "api" typed into the search box:
    the card of [api] is on the page, with its related term REST. *)
Definition searchingApi : State := onSearchInput "api" afterDataChange.

(** A name outside ASCII: E with acute accent (U+00C9), capital and
    small (U+00E9). *)
Definition ECLAIR : string := String (ascii_of_nat 201) "CLAIR".
Definition eclairSmall : string := String (ascii_of_nat 233) "clair".

Definition eclair : GlossaryTerm :=
  {| id := "eclair"; term := ECLAIR; fullForm := None;
     definition := "A pastry"; category := "Food";
     relatedTerms := []; examples := [] |}.

Definition patisserie : State :=
  {| data := Some {| terms := [eclair]; categories := ["Food"] |};
     filteredTerms := []; currentCategory := "all";
     searchQuery := EmptyString; navigationHistory := [];
     elements := {| breadcrumbNav := None; breadcrumbItems := None |};
     sessionStorage := emptyStorage; console := [] |}.

(** A term whose name and ID hold markup characters. *)
Definition quoted : GlossaryTerm :=
  {| id := String "a" (String JSON.dquote "b"); term := "R&D <lab>"; fullForm := None;
     definition := "Research"; category := "Org";
     relatedTerms := []; examples := [] |}.

End Fixture.

(** * Properties *)

(** ** The test suite, replayed *)

Example test_no_filters :
  List.map id (filterTerms Fixture.glossary) = ["api"; "ci-cd"; "docker"; "rest"].
Proof. reflexivity. Qed.

Example test_category :
  List.map id (filterTerms (setCurrentCategory "DevOps" Fixture.glossary)) = ["ci-cd"; "docker"].
Proof. reflexivity. Qed.

Example test_search_name :
  List.map id (filterTerms (setSearchQuery "docker" Fixture.glossary)) = ["docker"].
Proof. reflexivity. Qed.

Example test_category_and_search :
  List.map id (filterTerms (setSearchQuery "api" (setCurrentCategory "Architecture" Fixture.glossary)))
  = ["api"].
Proof. reflexivity. Qed.

Example test_search_fullForm :
  List.map id (filterTerms (setSearchQuery "continuous" Fixture.glossary)) = ["ci-cd"].
Proof. reflexivity. Qed.

(** The category is compared as it is written. *)
Example category_case_sensitive :
  filterTerms (setCurrentCategory "devops" Fixture.glossary) = [].
Proof. reflexivity. Qed.

(** Related terms are resolved by name, letter case aside. *)
Example related_terms_of_api :
  List.map (fun related => findTermIdByName related Fixture.glossary)
           (relatedTerms Fixture.api) = [Some "rest"; None].
Proof. reflexivity. Qed.

Example parse_stringify_example :
  JSON.stringify ["api"; "ci-cd"] = String "[" (String JSON.dquote "api" ++
    String JSON.dquote (String "," (String JSON.dquote "ci-cd" ++
    String JSON.dquote "]")))
  /\ JSON.parse (JSON.stringify ["api"; "ci-cd"]) = Some ["api"; "ci-cd"].
Proof. split; reflexivity. Qed.

(** ** Strings: the code's tests against their meaning *)

Section Strings.

Import Js.

Lemma startsWith_spec (s q : string) :
  startsWith s q = true <-> exists post, s = (q ++ post)%string.
Proof.
  revert s; induction q as [|b q IH]; intros s; simpl.
  - split; [intros _; exists s; reflexivity | reflexivity].
  - destruct s as [|a s]; simpl.
    + split; [discriminate | intros [post H]; discriminate].
    + rewrite andb_true_iff, Ascii.eqb_eq, IH. split.
      * intros [-> [post ->]]. exists post; reflexivity.
      * intros [post H]. injection H as -> ->. split; [reflexivity | exists post; reflexivity].
Qed.

Lemma includes_spec (s q : string) :
  includes s q = true <-> exists pre post, s = (pre ++ q ++ post)%string.
Proof.
  split.
  - induction s as [|a s IH]; simpl; rewrite orb_true_iff; intros [H|H].
    + apply startsWith_spec in H as [post ->]. exists EmptyString, post; reflexivity.
    + discriminate.
    + apply startsWith_spec in H as [post ->]. exists EmptyString, post; reflexivity.
    + destruct (IH H) as (pre & post & ->). exists (String a pre), post; reflexivity.
  - intros (pre & post & ->). induction pre as [|a pre IH]; simpl.
    + assert (H : startsWith (q ++ post) q = true)
        by (apply startsWith_spec; exists post; reflexivity).
      destruct (q ++ post)%string; simpl in *; rewrite H; reflexivity.
    + rewrite IH. apply orb_true_r.
Qed.

Lemma toLowerCase_app (a b : string) :
  toLowerCase (a ++ b) = (toLowerCase a ++ toLowerCase b)%string.
Proof. induction a as [|c a IH]; simpl; [reflexivity | rewrite IH; reflexivity]. Qed.

Lemma toLowerCase_split (s a' b' : string) :
  toLowerCase s = (a' ++ b')%string ->
  exists a b, s = (a ++ b)%string /\ toLowerCase a = a' /\ toLowerCase b = b'.
Proof.
  revert s; induction a' as [|c a' IH]; intros s H; simpl in H.
  - exists EmptyString, s. auto.
  - destruct s as [|d s]; simpl in H; [discriminate|].
    injection H as Hc Hs. destruct (IH _ Hs) as (a & b & -> & Ha & Hb).
    exists (String d a), b. simpl. rewrite Hc, Ha. auto.
Qed.

(** The code's test, [field.toLowerCase().includes(q)] with a lowercased
    [q], decides the case-insensitive occurrence of [q] in [field]. *)
Lemma includes_lower_spec (q s : string) :
  includes (toLowerCase s) (toLowerCase q) = true <-> CaseInsensitiveSubstring q s.
Proof.
  rewrite includes_spec. split.
  - intros (pre' & post' & H).
    apply toLowerCase_split in H as (pre & r & -> & _ & Hr).
    apply toLowerCase_split in Hr as (mid & post & -> & Hmid & _).
    exists pre, mid, post. auto.
  - intros (pre & mid & post & -> & Hmid).
    exists (toLowerCase pre), (toLowerCase post).
    rewrite !toLowerCase_app, Hmid. reflexivity.
Qed.

Lemma toLowerCodeUnit_idempotent (c : ascii) :
  toLowerCodeUnit (toLowerCodeUnit c) = toLowerCodeUnit c.
Proof.
  destruct c as [b0 b1 b2 b3 b4 b5 b6 b7].
  destruct b0, b1, b2, b3, b4, b5, b6, b7; reflexivity.
Qed.

Lemma toLowerCase_idempotent (s : string) : toLowerCase (toLowerCase s) = toLowerCase s.
Proof.
  induction s as [|c s IH]; simpl; [reflexivity|].
  rewrite toLowerCodeUnit_idempotent, IH. reflexivity.
Qed.

(** Lowercasing the query does not change where it occurs, case aside. *)
Lemma occurs_lowered (q s : string) :
  CaseInsensitiveSubstring (toLowerCase q) s <-> CaseInsensitiveSubstring q s.
Proof. unfold CaseInsensitiveSubstring. rewrite toLowerCase_idempotent. reflexivity. Qed.

Lemma empty_query_occurs (s : string) : CaseInsensitiveSubstring EmptyString s.
Proof. exists EmptyString, EmptyString, s. auto. Qed.

Lemma nothing_in_empty (q : string) :
  truthy q = true -> ~ CaseInsensitiveSubstring q EmptyString.
Proof.
  intros Hq H. apply includes_lower_spec in H.
  destruct q; [discriminate | simpl in H; discriminate].
Qed.

End Strings.

(** ** Lists *)

Lemma filter_sublist {A} (f : A -> bool) (l : list A) : sublist (List.filter f l) l.
Proof.
  induction l as [|x l IH]; simpl; [constructor|].
  destruct (f x); [apply sublist_skip | apply sublist_cons]; exact IH.
Qed.

Lemma filter_true {A} (l : list A) : List.filter (fun _ => true) l = l.
Proof. induction l as [|x l IH]; simpl; [|rewrite IH]; reflexivity. Qed.

Lemma nad_take (n : nat) (l : list string) : NoAdjacentDup l -> NoAdjacentDup (take n l).
Proof.
  intros H; revert n; induction H as [|x|x y l Hxy H IH]; intros n.
  - rewrite take_nil. constructor.
  - destruct n as [|n]; simpl; [|rewrite take_nil]; constructor.
  - destruct n as [|[|m]]; try constructor; [exact Hxy|].
    apply (IH (S m)).
Qed.

Lemma nad_snoc (l : list string) (x : string) :
  NoAdjacentDup l -> last l <> Some x -> NoAdjacentDup (l ++ [x]).
Proof.
  intros H; induction H as [|y|a b l Hab H IH]; intros Hlast; simpl.
  - constructor.
  - constructor; [|constructor]. intros ->. apply Hlast. reflexivity.
  - constructor; [exact Hab|]. apply IH. exact Hlast.
Qed.

(** The inductive reading agrees with the positional one: no index holds
    the same ID as the next index. *)
Lemma nad_positions (l : list string) :
  NoAdjacentDup l <-> forall i x, l !! i = Some x -> l !! S i <> Some x.
Proof.
  split.
  - intros H; induction H as [|y|a b l Hab H IH]; intros i x Hi Hn.
    + discriminate.
    + destruct i; discriminate.
    + destruct i as [|i].
      * simpl in Hi, Hn. congruence.
      * exact (IH i x Hi Hn).
  - induction l as [|a l IH]; intros H; [constructor|].
    destruct l as [|b l]; constructor.
    + intros ->. exact (H 0%nat b eq_refl eq_refl).
    + apply IH. intros i x Hi Hn. exact (H (S i) x Hi Hn).
Qed.

(** ** The filter engine *)

(** The predicate [filterTerms] hands to [filter] for a non-empty query. *)
Lemma query_test_spec (q : string) (t : GlossaryTerm) :
  Lowercased q -> Js.truthy q = true ->
  Js.includes (Js.toLowerCase (term t)) q ||
  Js.includes (Js.toLowerCase (definition t)) q ||
  match fullForm t with
  | Some f => Js.truthy f && Js.includes (Js.toLowerCase f) q
  | None => false
  end = true <-> Matches q t.
Proof.
  intros Hlow Hq. unfold Matches.
  rewrite !orb_true_iff, <- !includes_lower_spec, Hlow.
  assert (Hf : match fullForm t with
               | Some f => Js.truthy f && Js.includes (Js.toLowerCase f) q
               | None => false
               end = true <->
               exists f, fullForm t = Some f /\ CaseInsensitiveSubstring q f).
  { destruct (fullForm t) as [f|].
    - rewrite andb_true_iff. split.
      + intros [_ H]. exists f. split; [reflexivity|].
        apply includes_lower_spec. rewrite Hlow. exact H.
      + intros (f' & [= <-] & H). split.
        * destruct f; [exfalso; exact (nothing_in_empty q Hq H) | reflexivity].
        * apply includes_lower_spec in H. rewrite Hlow in H. exact H.
    - split; [discriminate | intros (f & H & _); discriminate]. }
  rewrite Hf. tauto.
Qed.

(** With the category at "all", what [filterTerms] does with a
    lowercased query. *)
Lemma filterTerms_all_query (s : State) (D : GlossaryData) (q : string) :
  data s = Some D -> currentCategory s = "all" -> searchQuery s = q -> Lowercased q ->
  exists keep : GlossaryTerm -> bool,
    (forall t, keep t = true <-> Matches q t) /\
    filterTerms s = List.filter keep (terms D).
Proof.
  intros Hd Hc Hq Hlow.
  unfold filterTerms. rewrite Hd, Hc, Hq. simpl.
  destruct (Js.truthy q) eqn:Ht.
  - eexists. split; [|reflexivity].
    intros t. apply (query_test_spec q t Hlow Ht).
  - destruct q; [|discriminate].
    exists (fun _ => true). split; [|symmetry; apply filter_true].
    intros t. split; [|reflexivity].
    intros _. left. apply empty_query_occurs.
Qed.

(** C1 (as amended). With the category filter at "all" and a lowercased
    query [q] (the form in which the search listener stores it),
    [filterTerms] returns the dataset's terms filtered, in order, by a
    test that holds exactly of the terms in which [q] occurs, letter case
    aside, in the name, the definition or the non-null full form; so a
    term is in the result if and only if it is in the dataset and matches
    in one of the three fields. *)
Theorem filterTerms_query_spec (s : State) (D : GlossaryData) (q : string) :
  data s = Some D -> currentCategory s = "all" -> searchQuery s = q -> Lowercased q ->
  (exists keep : GlossaryTerm -> bool,
      (forall t, keep t = true <-> Matches q t) /\
      filterTerms s = List.filter keep (terms D)) /\
  (forall t, In t (filterTerms s) <-> In t (terms D) /\ Matches q t).
Proof.
  intros Hd Hc Hq Hlow.
  pose proof (filterTerms_all_query s D q Hd Hc Hq Hlow) as Hk.
  split; [exact Hk|].
  destruct Hk as (keep & Hkeep & ->). intros t.
  rewrite List.filter_In, Hkeep. reflexivity.
Qed.

(** Through the search box the match is case-insensitive for every text
    typed: the listener lowercases it before [filterTerms] sees it. *)
Lemma search_input_case_insensitive (s : State) (D : GlossaryData) (value : string) :
  data s = Some D -> currentCategory s = "all" ->
  forall t, In t (filterTerms (onSearchInput value s)) <->
            In t (terms D) /\ Matches value t.
Proof.
  intros Hd Hc t.
  destruct (filterTerms_all_query (onSearchInput value s) D (Js.toLowerCase value))
    as (keep & Hkeep & ->); try assumption; try reflexivity.
  - apply toLowerCase_idempotent.
  - rewrite List.filter_In, Hkeep. unfold Matches.
    rewrite !occurs_lowered.
    split; intros [Hin [H|[H|(f & Hf & H)]]]; (split; [exact Hin|]); eauto.
    + right; right. exists f. split; [exact Hf|]. apply occurs_lowered. exact H.
    + right; right. exists f. split; [exact Hf|]. apply occurs_lowered. exact H.
Qed.

Lemma filterTerms_query_spec_witness :
  Lowercased "continuous" /\
  forall t, In t (filterTerms (setSearchQuery "continuous" Fixture.glossary)) <->
            In t (terms Fixture.dataset) /\ Matches "continuous" t.
Proof.
  split; [reflexivity|].
  apply (filterTerms_query_spec (setSearchQuery "continuous" Fixture.glossary)
           Fixture.dataset "continuous"); reflexivity.
Defined.

(** C1 as stated fails on a query with a capital letter: "API" occurs in
    the name of the term [api], yet [filterTerms] with that query returns
    nothing, because the field is lowercased and the query is not. *)
Lemma filterTerms_query_uppercase_counterexample :
  data (setSearchQuery "API" Fixture.glossary) = Some Fixture.dataset /\
  currentCategory (setSearchQuery "API" Fixture.glossary) = "all" /\
  searchQuery (setSearchQuery "API" Fixture.glossary) = "API" /\
  In Fixture.api (terms Fixture.dataset) /\ Matches "API" Fixture.api /\
  filterTerms (setSearchQuery "API" Fixture.glossary) = [] /\
  ~ In Fixture.api (filterTerms (setSearchQuery "API" Fixture.glossary)).
Proof.
  assert (E : filterTerms (setSearchQuery "API" Fixture.glossary) = [])
    by (vm_compute; reflexivity).
  rewrite E. repeat split; try reflexivity.
  - left; reflexivity.
  - left. exists EmptyString, "API", EmptyString. split; reflexivity.
  - intros [].
Qed.

(** The fold beyond ASCII: a capital letter of U+00C0 to U+00DE is
    lowercased like any other, so the small spelling finds the capital
    name, and a query with such a capital is not a lowercased one. *)
Example fold_latin1 :
  Js.toLowerCase Fixture.ECLAIR = Fixture.eclairSmall /\
  filterTerms (setSearchQuery Fixture.eclairSmall Fixture.patisserie) = [Fixture.eclair] /\
  filterTerms (setSearchQuery Fixture.ECLAIR Fixture.patisserie) = [] /\
  filteredTerms (onSearchInput Fixture.ECLAIR Fixture.patisserie) = [Fixture.eclair] /\
  findTermIdByName Fixture.eclairSmall Fixture.patisserie = Some "eclair" /\
  Js.toLowerCase (String (ascii_of_nat 215) EmptyString) = String (ascii_of_nat 215) EmptyString.
Proof. repeat split; reflexivity. Qed.

(** C2. With an empty query, [filterTerms] returns all the terms when the
    category is "all" and otherwise exactly the terms whose category
    field equals the category (compared as strings, so case-sensitively);
    in both cases the result is the dataset's list with the other terms
    struck out, nothing reordered. *)
Theorem filterTerms_category_spec (s : State) (D : GlossaryData) (c : string) :
  data s = Some D -> currentCategory s = c -> searchQuery s = EmptyString ->
  (c = "all" -> filterTerms s = terms D) /\
  (c <> "all" ->
     filterTerms s = List.filter (fun t => bool_decide (category t = c)) (terms D) /\
     forall t, In t (filterTerms s) <-> In t (terms D) /\ category t = c) /\
  sublist (filterTerms s) (terms D).
Proof.
  intros Hd Hc Hq.
  assert (E : filterTerms s =
              if String.eqb c "all" then terms D
              else List.filter (fun t => String.eqb (category t) c) (terms D)).
  { unfold filterTerms. rewrite Hd, Hc, Hq. simpl. destruct (String.eqb c "all"); reflexivity. }
  assert (F : List.filter (fun t => String.eqb (category t) c) (terms D) =
              List.filter (fun t => bool_decide (category t = c)) (terms D)).
  { apply List.filter_ext. intros t.
    destruct (String.eqb_spec (category t) c) as [e|n].
    - symmetry. apply bool_decide_eq_true_2. exact e.
    - symmetry. apply bool_decide_eq_false_2. exact n. }
  split; [|split].
  - intros ->. rewrite E. reflexivity.
  - intros Hne. rewrite E.
    destruct (String.eqb_spec c "all") as [e|n]; [contradiction|].
    split; [exact F|].
    intros t. rewrite List.filter_In, String.eqb_eq. reflexivity.
  - rewrite E. destruct (String.eqb c "all"); [reflexivity | apply filter_sublist].
Qed.

Lemma filterTerms_category_spec_witness :
  filterTerms (setCurrentCategory "DevOps" Fixture.glossary) =
    List.filter (fun t => bool_decide (category t = "DevOps")) (terms Fixture.dataset) /\
  List.map id (filterTerms (setCurrentCategory "DevOps" Fixture.glossary)) = ["ci-cd"; "docker"] /\
  filterTerms (setCurrentCategory "all" Fixture.glossary) = terms Fixture.dataset.
Proof.
  split; [|split; [reflexivity|]].
  - apply (filterTerms_category_spec (setCurrentCategory "DevOps" Fixture.glossary)
             Fixture.dataset "DevOps"); [reflexivity .. | discriminate].
  - apply (filterTerms_category_spec (setCurrentCategory "all" Fixture.glossary)
             Fixture.dataset "all"); reflexivity.
Defined.

(** ** JSON: what is written is read back *)

Section JsonRoundTrip.

Import JSON.

Lemma append_assoc (a b c : string) : ((a ++ b) ++ c = a ++ (b ++ c))%string.
Proof. induction a as [|x a IH]; simpl; [reflexivity | rewrite IH; reflexivity]. Qed.

Lemma append_snoc (a : string) (c : ascii) (r : string) :
  (snoc a c ++ r = a ++ String c r)%string.
Proof. unfold snoc. rewrite append_assoc. reflexivity. Qed.

(** One character, whatever its escape, comes back as itself. *)
Lemma read_escapeChar (c : ascii) (cur : string) (acc : list string) (rest : string) :
  read (InString cur) acc (escapeChar c ++ rest) = read (InString (snoc cur c)) acc rest.
Proof.
  destruct c as [b0 b1 b2 b3 b4 b5 b6 b7].
  destruct b0, b1, b2, b3, b4, b5, b6, b7; reflexivity.
Qed.

Lemma read_escape (s cur : string) (acc : list string) (rest : string) :
  read (InString cur) acc (escape s ++ rest) = read (InString (cur ++ s)) acc rest.
Proof.
  revert cur; induction s as [|c s IH]; intros cur.
  - simpl. replace (cur ++ EmptyString)%string with cur; [reflexivity|].
    induction cur as [|x cur IHc]; simpl; [reflexivity | rewrite <- IHc; reflexivity].
  - simpl escape. rewrite append_assoc, read_escapeChar, IH, append_snoc. reflexivity.
Qed.

Lemma quote_append (s rest : string) :
  (quote s ++ rest)%string = String dquote (escape s ++ String dquote rest).
Proof.
  unfold quote.
  change (String dquote (escape s ++ String dquote EmptyString) ++ rest)%string
    with (String dquote ((escape s ++ String dquote EmptyString) ++ rest)).
  rewrite append_assoc. reflexivity.
Qed.

Lemma read_closing_quote (cur : string) (acc : list string) (rest : string) :
  read (InString cur) acc (String dquote rest) = read AfterElement (acc ++ [cur]) rest.
Proof. reflexivity. Qed.

Lemma read_quote_first (s : string) (acc : list string) (rest : string) :
  read AfterOpen acc (quote s ++ rest) = read AfterElement (acc ++ [s]) rest.
Proof.
  rewrite quote_append.
  change (read (InString EmptyString) acc (escape s ++ String dquote rest) =
          read AfterElement (acc ++ [s]) rest).
  rewrite read_escape. apply read_closing_quote.
Qed.

Lemma read_quote_next (s : string) (acc : list string) (rest : string) :
  read AfterComma acc (quote s ++ rest) = read AfterElement (acc ++ [s]) rest.
Proof.
  rewrite quote_append.
  change (read (InString EmptyString) acc (escape s ++ String dquote rest) =
          read AfterElement (acc ++ [s]) rest).
  rewrite read_escape. apply read_closing_quote.
Qed.

Lemma read_elements_next (l acc : list string) :
  l <> [] ->
  read AfterComma acc (elements l ++ String "]" EmptyString) = Some (acc ++ l).
Proof.
  revert acc; induction l as [|x l IH]; intros acc Hne; [contradiction|].
  destruct l as [|y l].
  - simpl elements. rewrite read_quote_next. reflexivity.
  - change (elements (x :: y :: l)) with (quote x ++ String "," (elements (y :: l)))%string.
    rewrite append_assoc, read_quote_next.
    change (read AfterComma (acc ++ [x]) (elements (y :: l) ++ String "]" EmptyString) =
            Some (acc ++ x :: y :: l)).
    rewrite IH by discriminate. rewrite <- app_assoc. reflexivity.
Qed.

Lemma parse_stringify (l : list string) : parse (stringify l) = Some l.
Proof.
  unfold parse, stringify. destruct l as [|x l]; [reflexivity|].
  destruct l as [|y l].
  - change (read AfterOpen [] (quote x ++ String "]" EmptyString) = Some [x]).
    rewrite read_quote_first. reflexivity.
  - change (read AfterOpen [] ((quote x ++ String "," (elements (y :: l))) ++
                               String "]" EmptyString) = Some (x :: y :: l)).
    rewrite append_assoc, read_quote_first.
    change (read AfterComma ([] ++ [x]) (elements (y :: l) ++ String "]" EmptyString) =
            Some (x :: y :: l)).
    rewrite read_elements_next by discriminate. reflexivity.
Qed.

Lemma stringify_truthy (l : list string) : Js.truthy (stringify l) = true.
Proof. reflexivity. Qed.

End JsonRoundTrip.

(** ** What each method leaves alone *)

Lemma renderBreadcrumb_keeps (s : State) :
  data (stateOf (renderBreadcrumb s)) = data s /\
  filteredTerms (stateOf (renderBreadcrumb s)) = filteredTerms s /\
  currentCategory (stateOf (renderBreadcrumb s)) = currentCategory s /\
  searchQuery (stateOf (renderBreadcrumb s)) = searchQuery s /\
  navigationHistory (stateOf (renderBreadcrumb s)) = navigationHistory s /\
  sessionStorage (stateOf (renderBreadcrumb s)) = sessionStorage s /\
  console (stateOf (renderBreadcrumb s)) = console s.
Proof.
  unfold renderBreadcrumb.
  destruct (breadcrumbNav (elements s)), (breadcrumbItems (elements s));
    try (simpl; tauto).
  destruct (length (navigationHistory s) =? 0)%nat; [simpl; tauto|].
  match goal with |- context [renderCrumbs ?i ?n ?l] => destruct (renderCrumbs i n l) end;
    simpl; tauto.
Qed.

Lemma renderBreadcrumb_without_elements (s : State) :
  breadcrumbNav (elements s) = None \/ breadcrumbItems (elements s) = None ->
  renderBreadcrumb s = Normal s.
Proof.
  unfold renderBreadcrumb. intros [H|H]; rewrite H; [reflexivity|].
  destruct (breadcrumbNav (elements s)); reflexivity.
Qed.

Lemma saveHistory_keeps (s : State) :
  data (saveHistory s) = data s /\
  filteredTerms (saveHistory s) = filteredTerms s /\
  currentCategory (saveHistory s) = currentCategory s /\
  searchQuery (saveHistory s) = searchQuery s /\
  navigationHistory (saveHistory s) = navigationHistory s /\
  elements (saveHistory s) = elements s.
Proof.
  unfold saveHistory.
  destruct (setItem historyKey (JSON.stringify (navigationHistory s)) (sessionStorage s));
    simpl; tauto.
Qed.

Lemma saveHistory_elements (s : State) : elements (saveHistory s) = elements s.
Proof. apply saveHistory_keeps. Qed.

(** ** Array primitives *)

Lemma indexOfFrom_missing (i : Z) (x : string) (l : list string) :
  ~ In x l -> indexOfFrom i x l = (-1)%Z.
Proof.
  revert i; induction l as [|y l IH]; intros i Hn; simpl; [reflexivity|].
  destruct (String.eqb_spec y x) as [->|_].
  - exfalso. apply Hn. left; reflexivity.
  - apply IH. intros H. apply Hn. right; exact H.
Qed.

Lemma indexOfFrom_found (i : Z) (x : string) (l : list string) :
  In x l ->
  exists pre post, l = pre ++ x :: post /\ ~ In x pre /\
                   indexOfFrom i x l = (i + Z.of_nat (length pre))%Z.
Proof.
  revert i; induction l as [|y l IH]; intros i Hin; [destruct Hin|].
  simpl. destruct (String.eqb_spec y x) as [->|Hne].
  - exists [], l. simpl. repeat split; [tauto | lia].
  - destruct Hin as [Hin|Hin]; [contradiction|].
    destruct (IH (i + 1)%Z Hin) as (pre & post & -> & Hpre & Hi).
    exists (y :: pre), post. simpl. repeat split.
    + intros [H|H]; [contradiction | exact (Hpre H)].
    + rewrite Hi. lia.
Qed.

Lemma slice_from_start {A} (e : Z) (l : list A) :
  (0 <= e)%Z -> slice 0 e l = take (Z.to_nat e) l.
Proof.
  intros He. unfold slice. cbv zeta.
  change (0 <? 0)%Z with false. cbv iota.
  destruct (Z.ltb_spec e 0) as [?|_]; [lia|].
  rewrite (Z.min_l 0) by lia. rewrite Z.sub_0_r.
  change (Z.to_nat 0) with 0%nat. rewrite drop_0.
  destruct (Z.le_ge_cases e (Z.of_nat (length l))) as [H|H].
  - rewrite Z.min_l by lia. reflexivity.
  - rewrite Z.min_r by lia. rewrite Nat2Z.id.
    rewrite take_ge by lia. rewrite take_ge by lia. reflexivity.
Qed.

Lemma take_through {A} (pre : list A) (x : A) (post : list A) :
  take (length pre + 1) (pre ++ x :: post) = pre ++ [x].
Proof.
  induction pre as [|y pre IH]; simpl; [rewrite take_0; reflexivity|].
  rewrite IH. reflexivity.
Qed.

(** The tail test of [addToHistory]. *)
Lemma tail_test (termId : string) (h : list string) :
  (0 <? length h)%nat &&
  match h !! (length h - 1)%nat with
  | Some x => String.eqb x termId
  | None => false
  end = true <-> last h = Some termId.
Proof.
  rewrite last_lookup, Nat.sub_1_r.
  destruct h as [|y h]; [simpl; split; discriminate|].
  replace (0 <? length (y :: h))%nat with true by reflexivity. rewrite andb_true_l.
  destruct ((y :: h) !! Nat.pred (length (y :: h))) as [x|]; [|split; discriminate].
  rewrite String.eqb_eq. split; [intros ->; reflexivity | intros [= ->]; reflexivity].
Qed.

(** [addToHistory], told by the trail's last entry. *)
Lemma addToHistory_cases (termId : string) (s : State) :
  addToHistory termId s =
  if bool_decide (last (navigationHistory s) = Some termId) then Normal s
  else renderBreadcrumb
         (saveHistory (setNavigationHistory (navigationHistory s ++ [termId]) s)).
Proof.
  unfold addToHistory. case_bool_decide as H.
  - apply tail_test in H. rewrite H. reflexivity.
  - destruct (_ && _) eqn:E; [|reflexivity].
    apply tail_test in E. contradiction.
Qed.

Lemma addToHistory_trail (termId : string) (s : State) :
  navigationHistory (stateOf (addToHistory termId s)) =
  if bool_decide (last (navigationHistory s) = Some termId) then navigationHistory s
  else navigationHistory s ++ [termId].
Proof.
  rewrite addToHistory_cases. case_bool_decide; [reflexivity|].
  destruct (renderBreadcrumb_keeps
              (saveHistory (setNavigationHistory (navigationHistory s ++ [termId]) s)))
    as (_ & _ & _ & _ & -> & _).
  destruct (saveHistory_keeps (setNavigationHistory (navigationHistory s ++ [termId]) s))
    as (_ & _ & _ & _ & -> & _).
  reflexivity.
Qed.

(** ** The breadcrumb display list *)

(** Computing and rendering the list leaves the trail as it is. *)
Lemma renderBreadcrumb_keeps_trail (s : State) :
  navigationHistory (stateOf (renderBreadcrumb s)) = navigationHistory s.
Proof. apply renderBreadcrumb_keeps. Qed.

(** While every ID of the trail resolves, the code's list is the
    specification's display list. *)
Lemma breadcrumbTerms_resolving (s : State) (D : GlossaryData) :
  data s = Some D ->
  Forall (fun termId => is_Some (findById termId D)) (navigationHistory s) ->
  breadcrumbTerms s = List.map JsTerm (toDisplayList (navigationHistory s) D).
Proof.
  intros Hd. unfold breadcrumbTerms, toDisplayList. rewrite Hd.
  induction (navigationHistory s) as [|x h IH]; intros HF; [reflexivity|].
  inversion HF as [|? ? [t Ht] HF']; subst. simpl. rewrite Ht. simpl.
  rewrite IH by exact HF'. reflexivity.
Qed.

(** An ID that does not resolve is not left out: it stays in the list as
    [undefined], which the test [term !== null] lets through. *)
Lemma breadcrumbTerms_dangling (s : State) (D : GlossaryData) (termId : string) :
  data s = Some D -> In termId (navigationHistory s) -> findById termId D = None ->
  In JsUndefined (breadcrumbTerms s).
Proof.
  intros Hd Hin Hnone. unfold breadcrumbTerms. rewrite Hd.
  apply List.filter_In. split; [|reflexivity].
  apply List.in_map_iff. exists termId. rewrite Hnone. auto.
Qed.

Lemma renderCrumbs_undefined (l : list JsRef) (i n : nat) :
  In JsUndefined l -> renderCrumbs i n l = None.
Proof.
  revert i; induction l as [|r l IH]; intros i Hin; [destruct Hin|].
  destruct Hin as [->|Hin]; [reflexivity|].
  simpl. destruct r; try reflexivity. rewrite IH by exact Hin. reflexivity.
Qed.

(** With such an ID on the trail and the breadcrumb elements on the page,
    [renderBreadcrumb] ends in a [TypeError]. *)
Lemma renderBreadcrumb_dangling_throws (s : State) (D : GlossaryData) (termId : string) :
  data s = Some D -> In termId (navigationHistory s) -> findById termId D = None ->
  is_Some (breadcrumbNav (elements s)) -> is_Some (breadcrumbItems (elements s)) ->
  returns (renderBreadcrumb s) = false.
Proof.
  intros Hd Hin Hnone [nav Hnav] [shown Hshown].
  unfold renderBreadcrumb. rewrite Hnav, Hshown.
  destruct (navigationHistory s) as [|x h] eqn:Hh; [destruct Hin|].
  simpl (length (x :: h) =? 0)%nat. cbv iota zeta.
  rewrite renderCrumbs_undefined; [reflexivity|].
  apply (breadcrumbTerms_dangling _ D termId); simpl; [exact Hd | | exact Hnone].
  rewrite Hh. exact Hin.
Qed.

(** C3 (the code departs from it). After a reload that fetched data
    without the term [docker], the restored trail still names it; the
    display list should then hold the term [api] alone, but the code's
    list keeps an [undefined] entry for [docker] and rendering it raises.
    The trail itself is not changed by the attempt. *)
Theorem breadcrumb_dangling_id_kept :
  navigationHistory Fixture.afterDataChange = ["api"; "docker"] /\
  data Fixture.afterDataChange = Some Fixture.withoutDocker /\
  toDisplayList ["api"; "docker"] Fixture.withoutDocker = [Fixture.api] /\
  breadcrumbTerms Fixture.afterDataChange = [JsTerm Fixture.api; JsUndefined] /\
  returns (renderBreadcrumb Fixture.afterDataChange) = false /\
  navigationHistory (stateOf (renderBreadcrumb Fixture.afterDataChange)) = ["api"; "docker"].
Proof. vm_compute. repeat split; reflexivity. Qed.

(** ** Breadcrumb truncation *)

Lemma navigateToTerm_trail (termId : string) (fromBreadcrumb : bool)
      (s : State) (D : GlossaryData) (t : GlossaryTerm) :
  data s = Some D -> findById termId D = Some t ->
  navigationHistory (stateOf (navigateToTerm termId fromBreadcrumb s)) =
  navigationHistory (stateOf (updateTrail termId fromBreadcrumb s)).
Proof.
  intros Hd Ht. unfold navigateToTerm. rewrite Hd, Ht.
  destruct (updateTrail termId fromBreadcrumb s) as [s1|s1]; [|reflexivity].
  simpl. rewrite renderBreadcrumb_keeps_trail. reflexivity.
Qed.

Lemma truncation_trail (termId : string) (s : State) :
  navigationHistory (stateOf (updateTrail termId true s)) =
  if bool_decide (termId ∈ navigationHistory s)
  then take (Z.to_nat (indexOf termId (navigationHistory s) + 1)) (navigationHistory s)
  else navigationHistory s.
Proof.
  unfold updateTrail, indexOf. case_bool_decide as Hin; rewrite list_elem_of_In in Hin.
  - destruct (indexOfFrom_found 0 termId _ Hin) as (pre & post & Hl & _ & Hi).
    rewrite Hi. destruct (Z.eqb_spec (0 + Z.of_nat (length pre)) (-1)) as [?|_]; [lia|].
    simpl. destruct (saveHistory_keeps
      (setNavigationHistory
         (slice 0 (0 + Z.of_nat (length pre) + 1) (navigationHistory s)) s))
      as (_ & _ & _ & _ & -> & _).
    simpl. apply slice_from_start. lia.
  - rewrite indexOfFrom_missing by exact Hin. reflexivity.
Qed.

(** C4. A breadcrumb click on a term of the store keeps the trail up to
    and including the first occurrence of the term's ID and drops the
    rest; when the ID is not on the trail, the trail stays as it was. *)
Theorem breadcrumb_truncation (s : State) (D : GlossaryData) (termId : string)
        (t : GlossaryTerm) :
  data s = Some D -> findById termId D = Some t ->
  (In termId (navigationHistory s) ->
     exists pre post,
       navigationHistory s = pre ++ termId :: post /\ ~ In termId pre /\
       navigationHistory (stateOf (navigateToTerm termId true s)) = pre ++ [termId]) /\
  (~ In termId (navigationHistory s) ->
     navigationHistory (stateOf (navigateToTerm termId true s)) = navigationHistory s).
Proof.
  intros Hd Ht. rewrite (navigateToTerm_trail termId true s D t Hd Ht), truncation_trail.
  split; intros Hin.
  - rewrite bool_decide_eq_true_2 by (apply list_elem_of_In; exact Hin).
    destruct (indexOfFrom_found 0 termId _ Hin) as (pre & post & Hl & Hpre & Hi).
    exists pre, post. repeat split; [exact Hl | exact Hpre |].
    unfold indexOf. rewrite Hi, Hl.
    replace (Z.to_nat (0 + Z.of_nat (length pre) + 1)) with (length pre + 1)%nat by lia.
    apply take_through.
  - rewrite bool_decide_eq_false_2 by (rewrite list_elem_of_In; exact Hin). reflexivity.
Qed.

Lemma breadcrumb_truncation_witness :
  (exists pre post,
     ["api"; "ci-cd"; "docker"; "rest"] = pre ++ "ci-cd" :: post /\ ~ In "ci-cd" pre /\
     navigationHistory
       (stateOf (navigateToTerm "ci-cd" true
                   (setNavigationHistory ["api"; "ci-cd"; "docker"; "rest"] Fixture.glossary)))
     = pre ++ ["ci-cd"]) /\
  navigationHistory
    (stateOf (navigateToTerm "rest" true
                (setNavigationHistory ["api"; "ci-cd"; "docker"] Fixture.glossary)))
  = ["api"; "ci-cd"; "docker"].
Proof.
  split.
  - apply (breadcrumb_truncation
             (setNavigationHistory ["api"; "ci-cd"; "docker"; "rest"] Fixture.glossary)
             Fixture.dataset "ci-cd" Fixture.ci_cd eq_refl eq_refl).
    simpl. tauto.
  - apply (breadcrumb_truncation
             (setNavigationHistory ["api"; "ci-cd"; "docker"] Fixture.glossary)
             Fixture.dataset "rest" Fixture.rest eq_refl eq_refl).
    simpl. intros [H|[H|[H|[]]]]; discriminate.
Defined.

Example truncation_example :
  navigationHistory
    (stateOf (navigateToTerm "ci-cd" true
                (setNavigationHistory ["api"; "ci-cd"; "docker"; "rest"] Fixture.glossary)))
  = ["api"; "ci-cd"].
Proof. reflexivity. Qed.

(** ** Append *)

(** C5. [addToHistory x] changes nothing at all when [x] is the trail's
    last entry and otherwise leaves the trail with [x] pushed at its end;
    so after one call the trail ends in [x], and a second call with the
    same [x] changes nothing, the length included. *)
Theorem addToHistory_spec (s : State) (x : string) :
  addToHistory x s =
    (if bool_decide (last (navigationHistory s) = Some x) then Normal s
     else renderBreadcrumb
            (saveHistory (setNavigationHistory (navigationHistory s ++ [x]) s))) /\
  navigationHistory (stateOf (addToHistory x s)) =
    (if bool_decide (last (navigationHistory s) = Some x) then navigationHistory s
     else navigationHistory s ++ [x]) /\
  last (navigationHistory (stateOf (addToHistory x s))) = Some x /\
  addToHistory x (stateOf (addToHistory x s)) = Normal (stateOf (addToHistory x s)) /\
  length (navigationHistory (stateOf (addToHistory x (stateOf (addToHistory x s))))) =
    length (navigationHistory (stateOf (addToHistory x s))) /\
  (NoAdjacentDup (navigationHistory s) ->
   NoAdjacentDup (navigationHistory (stateOf (addToHistory x (stateOf (addToHistory x s)))))).
Proof.
  assert (Hlast : last (navigationHistory (stateOf (addToHistory x s))) = Some x).
  { rewrite addToHistory_trail. case_bool_decide as H; [exact H | apply last_snoc]. }
  assert (Hagain : addToHistory x (stateOf (addToHistory x s)) =
                   Normal (stateOf (addToHistory x s))).
  { rewrite (addToHistory_cases x (stateOf (addToHistory x s))).
    rewrite bool_decide_eq_true_2 by exact Hlast. reflexivity. }
  split; [apply addToHistory_cases|].
  split; [apply addToHistory_trail|].
  split; [exact Hlast|].
  split; [exact Hagain|].
  split; [rewrite Hagain; reflexivity|].
  intros Hnad. rewrite Hagain. simpl stateOf. rewrite addToHistory_trail.
  case_bool_decide as H; [exact Hnad | apply nad_snoc; assumption].
Qed.

Lemma addToHistory_spec_witness :
  navigationHistory
    (stateOf (addToHistory "rest" (stateOf (addToHistory "rest"
       (setNavigationHistory ["api"] Fixture.onPage))))) = ["api"; "rest"] /\
  NoAdjacentDup
    (navigationHistory
       (stateOf (addToHistory "rest" (stateOf (addToHistory "rest"
          (setNavigationHistory ["api"] Fixture.onPage)))))).
Proof.
  split; [reflexivity|].
  apply (addToHistory_spec (setNavigationHistory ["api"] Fixture.onPage) "rest").
  simpl. constructor.
Defined.

Example append_twice :
  navigationHistory (run Fixture.onPage [CallAddToHistory "api"; CallAddToHistory "rest";
                                          CallAddToHistory "rest"]) = ["api"; "rest"].
Proof. reflexivity. Qed.

(** ** Navigation *)

(** C6. When the ID resolves to no term of the loaded store,
    [navigateToTerm] returns at once for either value of the flag; the
    state it returns is the one it was called in but for one warning on
    the console: trail, stored mirror, category and query are untouched. *)
Theorem navigateToTerm_unresolved (s : State) (D : GlossaryData) (termId : string)
        (fromBreadcrumb : bool) :
  data s = Some D -> findById termId D = None ->
  navigateToTerm termId fromBreadcrumb s = Normal (log (WarnTermNotFound termId) s) /\
  navigationHistory (stateOf (navigateToTerm termId fromBreadcrumb s)) = navigationHistory s /\
  sessionStorage (stateOf (navigateToTerm termId fromBreadcrumb s)) = sessionStorage s /\
  currentCategory (stateOf (navigateToTerm termId fromBreadcrumb s)) = currentCategory s /\
  searchQuery (stateOf (navigateToTerm termId fromBreadcrumb s)) = searchQuery s /\
  filteredTerms (stateOf (navigateToTerm termId fromBreadcrumb s)) = filteredTerms s /\
  elements (stateOf (navigateToTerm termId fromBreadcrumb s)) = elements s /\
  console (stateOf (navigateToTerm termId fromBreadcrumb s)) =
    console s ++ [WarnTermNotFound termId].
Proof.
  intros Hd Hnone. unfold navigateToTerm. rewrite Hd, Hnone. simpl. tauto.
Qed.

Lemma navigateToTerm_unresolved_witness :
  navigateToTerm "graphql" false
    (setSearchQuery "dock" (setCurrentCategory "DevOps"
       (setNavigationHistory ["api"; "rest"] Fixture.onPage))) =
  Normal (log (WarnTermNotFound "graphql")
    (setSearchQuery "dock" (setCurrentCategory "DevOps"
       (setNavigationHistory ["api"; "rest"] Fixture.onPage)))) /\
  navigationHistory (stateOf (navigateToTerm "graphql" true
    (setSearchQuery "dock" (setCurrentCategory "DevOps"
       (setNavigationHistory ["api"; "rest"] Fixture.onPage))))) = ["api"; "rest"].
Proof.
  split.
  - apply (navigateToTerm_unresolved _ Fixture.dataset "graphql" false); reflexivity.
  - apply (navigateToTerm_unresolved
             (setSearchQuery "dock" (setCurrentCategory "DevOps"
                (setNavigationHistory ["api"; "rest"] Fixture.onPage)))
             Fixture.dataset "graphql" true); reflexivity.
Defined.

Lemma findById_In (termId : string) (D : GlossaryData) (t : GlossaryTerm) :
  findById termId D = Some t -> In t (terms D) /\ id t = termId.
Proof.
  unfold findById. intros H. apply List.find_some in H as [Hin Hid].
  apply String.eqb_eq in Hid. auto.
Qed.

(** The view recomputed by [navigateToTerm] once the filters are reset. *)
Lemma filterTerms_reset (s : State) (D : GlossaryData) :
  data s = Some D -> filterTerms (setCurrentCategory "all" (setSearchQuery EmptyString s)) = terms D.
Proof. intros Hd. unfold filterTerms. simpl. rewrite Hd. reflexivity. Qed.

Lemma updateTrail_keeps_data (termId : string) (fromBreadcrumb : bool) (s : State) :
  data (stateOf (updateTrail termId fromBreadcrumb s)) = data s.
Proof.
  unfold updateTrail. destruct fromBreadcrumb.
  - destruct (negb _); [|reflexivity]. simpl.
    match goal with |- data (saveHistory ?x) = _ =>
      destruct (saveHistory_keeps x) as (-> & _) end.
    reflexivity.
  - rewrite addToHistory_cases. case_bool_decide; [reflexivity|].
    match goal with |- data (stateOf (renderBreadcrumb ?x)) = _ =>
      destruct (renderBreadcrumb_keeps x) as (-> & _) end.
    match goal with |- data (saveHistory ?x) = _ =>
      destruct (saveHistory_keeps x) as (-> & _) end.
    reflexivity.
Qed.

(** What a call that returns leaves: whatever the category and the
    query were, once [navigateToTerm] has returned for an ID that
    resolves to a term, the query is empty, the category is "all", the
    filtered view is the one recomputed under these filters, and the term
    is in it. *)
Theorem navigateToTerm_target_visible (s : State) (D : GlossaryData) (termId : string)
        (fromBreadcrumb : bool) (t : GlossaryTerm) :
  data s = Some D -> findById termId D = Some t ->
  returns (navigateToTerm termId fromBreadcrumb s) = true ->
  searchQuery (stateOf (navigateToTerm termId fromBreadcrumb s)) = EmptyString /\
  currentCategory (stateOf (navigateToTerm termId fromBreadcrumb s)) = "all" /\
  filteredTerms (stateOf (navigateToTerm termId fromBreadcrumb s)) =
    filterTerms (stateOf (navigateToTerm termId fromBreadcrumb s)) /\
  id t = termId /\
  In t (filteredTerms (stateOf (navigateToTerm termId fromBreadcrumb s))).
Proof.
  intros Hd Ht. unfold navigateToTerm. rewrite Hd, Ht.
  pose proof (updateTrail_keeps_data termId fromBreadcrumb s) as Hd1.
  destruct (updateTrail termId fromBreadcrumb s) as [s1|s1]; [|discriminate].
  simpl in Hd1. rewrite Hd in Hd1. intros _. simpl andThen.
  set (s2 := filterAndRender (setCurrentCategory "all" (setSearchQuery EmptyString s1))).
  destruct (renderBreadcrumb_keeps s2) as (Hdata & Hft & Hcat & Hq & _).
  simpl in Hdata, Hft, Hcat, Hq.
  destruct (findById_In termId D t Ht) as [Hin Hid].
  assert (Hview : filterTerms (stateOf (renderBreadcrumb s2)) = terms D).
  { unfold filterTerms. rewrite Hdata, Hcat, Hq. simpl. rewrite Hd1. reflexivity. }
  rewrite Hft, (filterTerms_reset s1 D Hd1), Hview.
  repeat split; try assumption.
Qed.

Lemma navigateToTerm_target_visible_witness :
  searchQuery (stateOf (navigateToTerm "api" false
    (setSearchQuery "dock" (setCurrentCategory "DevOps" Fixture.onPage)))) = EmptyString /\
  currentCategory (stateOf (navigateToTerm "api" false
    (setSearchQuery "dock" (setCurrentCategory "DevOps" Fixture.onPage)))) = "all" /\
  In Fixture.api (filteredTerms (stateOf (navigateToTerm "api" false
    (setSearchQuery "dock" (setCurrentCategory "DevOps" Fixture.onPage))))).
Proof.
  destruct (navigateToTerm_target_visible
              (setSearchQuery "dock" (setCurrentCategory "DevOps" Fixture.onPage))
              Fixture.dataset "api" false Fixture.api eq_refl eq_refl eq_refl)
    as (Hq & Hc & _ & _ & Hin).
  exact (conj Hq (conj Hc Hin)).
Defined.

(** [navigateToTerm] does return when the page has no breadcrumb
    elements, and also when every ID on the trail resolves. *)
Lemma navigateToTerm_returns_without_elements (s : State) (termId : string)
      (fromBreadcrumb : bool) :
  breadcrumbNav (elements s) = None ->
  returns (navigateToTerm termId fromBreadcrumb s) = true.
Proof.
  intros Hnav. unfold navigateToTerm.
  destruct (data s) as [D|]; [|reflexivity].
  destruct (findById termId D); [|reflexivity].
  assert (H : exists s1, updateTrail termId fromBreadcrumb s = Normal s1 /\
                         elements s1 = elements s).
  { unfold updateTrail. destruct fromBreadcrumb.
    - destruct (negb _); [|eauto]. eexists. split; [reflexivity|].
      rewrite saveHistory_elements. reflexivity.
    - rewrite addToHistory_cases. case_bool_decide; [eauto|].
      rewrite renderBreadcrumb_without_elements.
      + eexists. split; [reflexivity|]. rewrite saveHistory_elements. reflexivity.
      + left. rewrite saveHistory_elements. exact Hnav. }
  destruct H as (s1 & -> & He). simpl.
  rewrite renderBreadcrumb_without_elements; [reflexivity|].
  left. simpl. rewrite He. exact Hnav.
Qed.

(** It need not return: with a dangling ID on the trail and the
    breadcrumb elements on the page, a click on a related term pushes the
    ID, saves, and then leaves by the [TypeError] of [renderBreadcrumb]
    before the filters are reset. *)
Example navigateToTerm_interrupted :
  returns (navigateToTerm "rest" false (setSearchQuery "dock" Fixture.afterDataChange)) = false /\
  searchQuery (stateOf (navigateToTerm "rest" false
                          (setSearchQuery "dock" Fixture.afterDataChange))) = "dock" /\
  navigationHistory (stateOf (navigateToTerm "rest" false
                          (setSearchQuery "dock" Fixture.afterDataChange)))
  = ["api"; "docker"; "rest"].
Proof. vm_compute. repeat split; reflexivity. Qed.

(** C7 (the code departs from it). After a reload that fetched data
    without [docker], the restored trail still names it; "api" is typed
    and the related term REST of the card shown is clicked. The ID "rest"
    resolves, yet [navigateToTerm] pushes it, saves, and leaves by the
    [TypeError] of [renderBreadcrumb] inside [addToHistory], before the
    lines that clear the query and reset the category: the query is still
    "api", the view is still the card of [api] alone, and the term
    navigated to is not in it. *)
Theorem navigateToTerm_target_not_shown :
  data Fixture.searchingApi = Some Fixture.withoutDocker /\
  findById "rest" Fixture.withoutDocker = Some Fixture.rest /\
  List.map id (filteredTerms Fixture.searchingApi) = ["api"] /\
  navigationHistory Fixture.searchingApi = ["api"; "docker"] /\
  returns (navigateToTerm "rest" false Fixture.searchingApi) = false /\
  navigationHistory (stateOf (navigateToTerm "rest" false Fixture.searchingApi)) =
    ["api"; "docker"; "rest"] /\
  searchQuery (stateOf (navigateToTerm "rest" false Fixture.searchingApi)) = "api" /\
  List.map id (filteredTerms (stateOf (navigateToTerm "rest" false Fixture.searchingApi))) =
    ["api"] /\
  ~ In Fixture.rest (filteredTerms (stateOf (navigateToTerm "rest" false Fixture.searchingApi))).
Proof.
  assert (E : filteredTerms (stateOf (navigateToTerm "rest" false Fixture.searchingApi)) =
              [Fixture.api]) by (vm_compute; reflexivity).
  rewrite E. repeat split; try (vm_compute; reflexivity).
  intros [H|[]]. discriminate H.
Qed.

(** ** Before the data has loaded *)

(** C10. While [data] is [null], [filterTerms] returns the empty list,
    [findTermIdByName] finds nothing for any name, and [navigateToTerm]
    returns the state unchanged for any ID and either flag. *)
Theorem before_load_noop (s : State) :
  data s = None ->
  filterTerms s = [] /\
  (forall termName, findTermIdByName termName s = None) /\
  (forall termId fromBreadcrumb, navigateToTerm termId fromBreadcrumb s = Normal s).
Proof.
  intros Hd. unfold filterTerms, findTermIdByName, navigateToTerm. rewrite Hd.
  repeat split.
Qed.

Lemma before_load_noop_witness :
  filterTerms (new_TechGlossary Fixture.onPage) = [] /\
  (forall termName, findTermIdByName termName (new_TechGlossary Fixture.onPage) = None) /\
  (forall termId fromBreadcrumb,
      navigateToTerm termId fromBreadcrumb (new_TechGlossary Fixture.onPage) =
      Normal (new_TechGlossary Fixture.onPage)).
Proof. apply (before_load_noop (new_TechGlossary Fixture.onPage)). reflexivity. Defined.

(** ** The history invariant *)

Lemma restored_cases (st : Storage) :
  restored st =
  match getItem historyKey st with
  | Some stored =>
    if Js.truthy stored then
      match JSON.parse stored with Some l => l | None => [] end
    else []
  | None => []
  end.
Proof.
  unfold restored, initializeHistory. simpl.
  destruct (getItem historyKey st) as [stored|]; [|reflexivity].
  destruct (Js.truthy stored); [|reflexivity].
  destruct (JSON.parse stored); reflexivity.
Qed.

Lemma initializeHistory_trail (s : State) :
  navigationHistory (initializeHistory s) = restored (sessionStorage s) \/
  navigationHistory (initializeHistory s) = navigationHistory s.
Proof.
  rewrite restored_cases. unfold initializeHistory.
  destruct (getItem historyKey (sessionStorage s)) as [stored|]; [|right; reflexivity].
  destruct (Js.truthy stored); [|right; reflexivity].
  destruct (JSON.parse stored); left; reflexivity.
Qed.

Lemma initializeHistory_fresh (s : State) :
  navigationHistory s = [] ->
  navigationHistory (initializeHistory s) = restored (sessionStorage s).
Proof.
  intros Hh. rewrite restored_cases. unfold initializeHistory.
  destruct (getItem historyKey (sessionStorage s)) as [stored|]; [|exact Hh].
  destruct (Js.truthy stored); [|exact Hh].
  destruct (JSON.parse stored); reflexivity.
Qed.

Lemma initializeHistory_storage (s : State) :
  sessionStorage (initializeHistory s) = sessionStorage s.
Proof.
  unfold initializeHistory.
  destruct (getItem historyKey (sessionStorage s)) as [stored|]; [|reflexivity].
  destruct (Js.truthy stored); [|reflexivity].
  destruct (JSON.parse stored); reflexivity.
Qed.

(** What [saveHistory] leaves in the storage: the trail, retrievable, or
    what was there when the write is refused. *)
Lemma saveHistory_storage (s : State) :
  (quotaExceeded (sessionStorage s) = false /\
   quotaExceeded (sessionStorage (saveHistory s)) = false /\
   getItem historyKey (sessionStorage (saveHistory s)) =
     Some (JSON.stringify (navigationHistory s))) \/
  (quotaExceeded (sessionStorage s) = true /\
   sessionStorage (saveHistory s) = sessionStorage s).
Proof.
  unfold saveHistory, setItem, getItem.
  destruct (quotaExceeded (sessionStorage s)) eqn:Hq; [right; auto|].
  left. simpl. rewrite lookup_insert_eq. auto.
Qed.

Lemma restored_stringify (st : Storage) (h : list string) :
  getItem historyKey st = Some (JSON.stringify h) -> restored st = h.
Proof.
  intros H. rewrite restored_cases, H, stringify_truthy, parse_stringify. reflexivity.
Qed.

Lemma inv_same_history (s s' : State) :
  navigationHistory s' = navigationHistory s -> sessionStorage s' = sessionStorage s ->
  HistoryInv s -> HistoryInv s'.
Proof. unfold HistoryInv. intros -> ->. tauto. Qed.

Lemma inv_saveHistory (h : list string) (s : State) :
  NoAdjacentDup h -> HistoryInv s -> HistoryInv (saveHistory (setNavigationHistory h s)).
Proof.
  intros Hh [_ Hst]. unfold HistoryInv.
  destruct (saveHistory_keeps (setNavigationHistory h s)) as (_ & _ & _ & _ & -> & _).
  split; [exact Hh|].
  destruct (saveHistory_storage (setNavigationHistory h s)) as [(_ & _ & H)|(_ & ->)].
  - unfold MirrorSound. rewrite H. exists h. auto.
  - exact Hst.
Qed.

Lemma inv_renderBreadcrumb (s : State) :
  HistoryInv s -> HistoryInv (stateOf (renderBreadcrumb s)).
Proof. apply inv_same_history; apply renderBreadcrumb_keeps. Qed.

Lemma inv_addToHistory (x : string) (s : State) :
  HistoryInv s -> HistoryInv (stateOf (addToHistory x s)).
Proof.
  intros H. rewrite addToHistory_cases. case_bool_decide as Hlast; [exact H|].
  apply inv_renderBreadcrumb, inv_saveHistory; [|exact H].
  apply nad_snoc; [apply H | exact Hlast].
Qed.

Lemma inv_clearHistory (s : State) : HistoryInv s -> HistoryInv (stateOf (clearHistory s)).
Proof.
  intros H. apply inv_renderBreadcrumb, inv_saveHistory; [constructor | exact H].
Qed.

Lemma inv_updateTrail (x : string) (fromBreadcrumb : bool) (s : State) :
  HistoryInv s -> HistoryInv (stateOf (updateTrail x fromBreadcrumb s)).
Proof.
  intros H. unfold updateTrail. destruct fromBreadcrumb; [|apply inv_addToHistory, H].
  destruct (Z.eqb_spec (indexOf x (navigationHistory s)) (-1)) as [_|Hne]; [exact H|].
  simpl. apply inv_saveHistory; [|exact H].
  unfold slice. apply nad_take.
  match goal with |- NoAdjacentDup (drop ?k _) => replace k with 0%nat end; [apply H|].
  simpl. destruct (navigationHistory s); simpl; lia.
Qed.

Lemma inv_navigateToTerm (x : string) (fromBreadcrumb : bool) (s : State) :
  HistoryInv s -> HistoryInv (stateOf (navigateToTerm x fromBreadcrumb s)).
Proof.
  intros H. unfold navigateToTerm.
  destruct (data s) as [D|]; [|exact H].
  destruct (findById x D); [|exact H].
  pose proof (inv_updateTrail x fromBreadcrumb s H) as H1.
  destruct (updateTrail x fromBreadcrumb s) as [s1|s1]; [|exact H1].
  simpl. apply inv_renderBreadcrumb. exact H1.
Qed.

Lemma inv_initializeHistory (s : State) : HistoryInv s -> HistoryInv (initializeHistory s).
Proof.
  intros [Hh Hst]. unfold HistoryInv. rewrite initializeHistory_storage.
  split; [|exact Hst].
  unfold MirrorSound in Hst. unfold initializeHistory.
  destruct (getItem historyKey (sessionStorage s)) as [text|]; [|exact Hh].
  destruct Hst as (l & -> & Hl).
  rewrite stringify_truthy, parse_stringify. exact Hl.
Qed.

Lemma inv_new (s : State) : HistoryInv s -> HistoryInv (new_TechGlossary s).
Proof. intros [_ Hst]. split; [constructor | exact Hst]. Qed.

Lemma inv_init (page : Elements) (loaded : option GlossaryData) (s : State) :
  HistoryInv s -> HistoryInv (init page loaded s).
Proof.
  intros H. unfold init, initEnd, initBegin.
  assert (H1 : HistoryInv (initializeHistory (setElements page s)))
    by (apply inv_initializeHistory; exact H).
  destruct loaded as [d|]; [|exact H1].
  apply inv_renderBreadcrumb. exact H1.
Qed.

Lemma inv_step (s : State) (e : Event) : HistoryInv s -> HistoryInv (step s e).
Proof.
  intros H. destruct e; simpl.
  - apply inv_navigateToTerm, H.
  - apply inv_addToHistory, H.
  - apply inv_clearHistory, H.
  - exact H.
  - exact H.
  - apply inv_init, inv_new, H.
Qed.

Lemma inv_run (es : list Event) (s : State) : HistoryInv s -> HistoryInv (run s es).
Proof.
  revert s; induction es as [|e es IH]; intros s H; [exact H|].
  apply IH, inv_step, H.
Qed.

(** A session that starts with nothing under the history key. *)
Lemma inv_fresh (s : State) :
  navigationHistory s = [] -> getItem historyKey (sessionStorage s) = None -> HistoryInv s.
Proof.
  intros Hh Hst. split; [rewrite Hh; constructor|].
  unfold MirrorSound. rewrite Hst. exact I.
Qed.

(** C8. The invariant "no two equal neighbours, in the trail in memory
    and in the trail kept in the storage" is kept by the restore at start-up, by append,
    by navigation (breadcrumb truncation included) and by clear, hence by
    every run of events; so the trail never holds an ID twice in a row,
    while a revisit after another term does add the ID again. *)
Theorem history_no_adjacent_duplicates (s : State) :
  HistoryInv s ->
  HistoryInv (initializeHistory s) /\
  HistoryInv (initializeHistory (new_TechGlossary s)) /\
  (forall x, HistoryInv (stateOf (addToHistory x s))) /\
  (forall x fromBreadcrumb, HistoryInv (stateOf (navigateToTerm x fromBreadcrumb s))) /\
  HistoryInv (stateOf (clearHistory s)) /\
  (forall es, HistoryInv (run s es) /\ NoAdjacentDup (navigationHistory (run s es))) /\
  navigationHistory
    (run Fixture.onPage [CallNavigateToTerm "api" false; CallNavigateToTerm "rest" false;
                         CallNavigateToTerm "api" false]) = ["api"; "rest"; "api"].
Proof.
  intros H.
  split; [apply inv_initializeHistory, H|].
  split; [apply inv_initializeHistory, inv_new, H|].
  split; [intros x; apply inv_addToHistory, H|].
  split; [intros x fb; apply inv_navigateToTerm, H|].
  split; [apply inv_clearHistory, H|].
  split; [|vm_compute; reflexivity].
  intros es. pose proof (inv_run es s H) as Hr. split; [exact Hr | apply Hr].
Qed.

Lemma history_no_adjacent_duplicates_witness :
  NoAdjacentDup
    (navigationHistory
       (run Fixture.onPage
            [CallNavigateToTerm "api" false; CallNavigateToTerm "api" false;
             CallNavigateToTerm "rest" false; Reload Fixture.page (Some Fixture.dataset);
             CallNavigateToTerm "rest" false; CallNavigateToTerm "api" true])).
Proof.
  assert (H : HistoryInv Fixture.onPage) by (apply inv_fresh; reflexivity).
  destruct (history_no_adjacent_duplicates Fixture.onPage H)
    as (_ & _ & _ & _ & _ & Hrun & _).
  apply Hrun.
Defined.

(** The restore takes the stored text at its word, which is why the
    invariant speaks of the trail together with its mirror: a text left
    under the key by other hands may hold what the class never writes. *)
Example restore_trusts_storage :
  restored Fixture.foreignStorage = ["api"; "api"].
Proof. vm_compute. reflexivity. Qed.

(** ** The stored mirror *)

Lemma mirrored_same_history (s s' : State) :
  navigationHistory s' = navigationHistory s -> sessionStorage s' = sessionStorage s ->
  Mirrored s -> Mirrored s'.
Proof. unfold Mirrored. intros -> ->. tauto. Qed.

Lemma mirrored_saveHistory (h : list string) (s : State) :
  quotaExceeded (sessionStorage s) = false -> Mirrored (saveHistory (setNavigationHistory h s)).
Proof.
  intros Hq. unfold Mirrored.
  destruct (saveHistory_keeps (setNavigationHistory h s)) as (_ & _ & _ & _ & -> & _).
  destruct (saveHistory_storage (setNavigationHistory h s)) as [(_ & -> & ->)|(Hq' & _)].
  - split; reflexivity.
  - simpl in Hq'. congruence.
Qed.

Lemma mirrored_renderBreadcrumb (s : State) :
  Mirrored s -> Mirrored (stateOf (renderBreadcrumb s)).
Proof. apply mirrored_same_history; apply renderBreadcrumb_keeps. Qed.

Lemma mirrored_addToHistory (x : string) (s : State) :
  Mirrored s -> Mirrored (stateOf (addToHistory x s)).
Proof.
  intros H. rewrite addToHistory_cases. case_bool_decide; [exact H|].
  apply mirrored_renderBreadcrumb, mirrored_saveHistory, H.
Qed.

Lemma mirrored_clearHistory (s : State) : Mirrored s -> Mirrored (stateOf (clearHistory s)).
Proof. intros H. apply mirrored_renderBreadcrumb, mirrored_saveHistory, H. Qed.

Lemma mirrored_updateTrail (x : string) (fromBreadcrumb : bool) (s : State) :
  Mirrored s -> Mirrored (stateOf (updateTrail x fromBreadcrumb s)).
Proof.
  intros H. unfold updateTrail. destruct fromBreadcrumb; [|apply mirrored_addToHistory, H].
  destruct (negb _); [|exact H]. simpl. apply mirrored_saveHistory, H.
Qed.

Lemma mirrored_navigateToTerm (x : string) (fromBreadcrumb : bool) (s : State) :
  Mirrored s -> Mirrored (stateOf (navigateToTerm x fromBreadcrumb s)).
Proof.
  intros H. unfold navigateToTerm.
  destruct (data s) as [D|]; [|exact H].
  destruct (findById x D); [|exact H].
  pose proof (mirrored_updateTrail x fromBreadcrumb s H) as H1.
  destruct (updateTrail x fromBreadcrumb s) as [s1|s1]; [|exact H1].
  simpl. apply mirrored_renderBreadcrumb. exact H1.
Qed.

(** A restore in step with the mirror yields the trail that was in
    memory when the mirror was last written. *)
Lemma mirrored_restored (s : State) :
  Mirrored s -> restored (sessionStorage s) = navigationHistory s.
Proof.
  intros [_ H]. destruct (getItem historyKey (sessionStorage s)) as [text|] eqn:Hg.
  - subst text. apply restored_stringify. exact Hg.
  - rewrite restored_cases, Hg. symmetry. exact H.
Qed.

Lemma restore_after (s : State) :
  Mirrored s -> navigationHistory (initializeHistory (new_TechGlossary s)) = navigationHistory s.
Proof.
  intros H. rewrite initializeHistory_fresh by reflexivity. simpl.
  apply mirrored_restored. exact H.
Qed.

Lemma mirrored_init (page : Elements) (loaded : option GlossaryData) (s : State) :
  Mirrored s -> Mirrored (init page loaded (new_TechGlossary s)).
Proof.
  intros H.
  assert (H1 : Mirrored (initializeHistory (setElements page (new_TechGlossary s)))).
  { apply (mirrored_same_history s); [| |exact H].
    - rewrite initializeHistory_fresh by reflexivity. simpl.
      apply mirrored_restored. exact H.
    - rewrite initializeHistory_storage. reflexivity. }
  unfold init, initEnd, initBegin. destruct loaded as [d|]; [|exact H1].
  apply mirrored_renderBreadcrumb. exact H1.
Qed.

Lemma mirrored_step (s : State) (e : Event) : Mirrored s -> Mirrored (step s e).
Proof.
  intros H. destruct e; simpl.
  - apply mirrored_navigateToTerm, H.
  - apply mirrored_addToHistory, H.
  - apply mirrored_clearHistory, H.
  - exact H.
  - exact H.
  - apply mirrored_init, H.
Qed.

Lemma mirrored_run (es : list Event) (s : State) : Mirrored s -> Mirrored (run s es).
Proof.
  revert s; induction es as [|e es IH]; intros s H; [exact H|].
  apply IH, mirrored_step, H.
Qed.

(** C9. Start a session with an empty trail, nothing under the history
    key and a storage that accepts writes. After any run of events the
    storage is in step with the trail in memory, and [initializeHistory]
    on a fresh instance restores exactly that trail; in particular, after
    two appends of different IDs [a] and [b] it restores [[a; b]]. *)
Theorem persistence_round_trip (s0 : State) :
  navigationHistory s0 = [] ->
  getItem historyKey (sessionStorage s0) = None ->
  quotaExceeded (sessionStorage s0) = false ->
  (forall es,
     Mirrored (run s0 es) /\
     navigationHistory (initializeHistory (new_TechGlossary (run s0 es))) =
       navigationHistory (run s0 es)) /\
  (forall a b, a <> b ->
     getItem historyKey (sessionStorage (run s0 [CallAddToHistory a; CallAddToHistory b])) =
       Some (JSON.stringify [a; b]) /\
     navigationHistory
       (initializeHistory
          (new_TechGlossary (run s0 [CallAddToHistory a; CallAddToHistory b]))) = [a; b]).
Proof.
  intros Hh Hst Hq.
  assert (H0 : Mirrored s0).
  { split; [exact Hq|]. rewrite Hst. exact Hh. }
  assert (Hall : forall es,
             Mirrored (run s0 es) /\
             navigationHistory (initializeHistory (new_TechGlossary (run s0 es))) =
               navigationHistory (run s0 es)).
  { intros es. pose proof (mirrored_run es s0 H0) as Hr.
    split; [exact Hr | apply restore_after, Hr]. }
  split; [exact Hall|].
  intros a b Hab.
  assert (Htrail : navigationHistory (run s0 [CallAddToHistory a; CallAddToHistory b]) = [a; b]).
  { simpl. rewrite addToHistory_trail, addToHistory_trail, Hh. simpl.
    rewrite bool_decide_eq_false_2 by congruence. reflexivity. }
  destruct (Hall [CallAddToHistory a; CallAddToHistory b]) as [[_ Hm] Hre].
  rewrite Hre, Htrail. split; [|reflexivity].
  destruct (getItem historyKey
              (sessionStorage (run s0 [CallAddToHistory a; CallAddToHistory b]))) as [text|].
  - rewrite Hm, Htrail. reflexivity.
  - rewrite Htrail in Hm. discriminate.
Qed.

Lemma persistence_round_trip_witness :
  navigationHistory
    (initializeHistory
       (new_TechGlossary (run Fixture.onPage [CallAddToHistory "api"; CallAddToHistory "rest"])))
  = ["api"; "rest"].
Proof.
  destruct (persistence_round_trip Fixture.onPage eq_refl eq_refl eq_refl) as [_ H].
  apply (H "api" "rest"). discriminate.
Defined.

(** When the storage refuses the write, the trail in memory goes on and
    the mirror stays behind: the warning is logged and a reload restores
    the older trail. *)
Example refused_write_leaves_stale_mirror :
  navigationHistory
    (stateOf (addToHistory "api"
       (setSessionStorage {| items := ∅; quotaExceeded := true |} Fixture.onPage))) = ["api"] /\
  console
    (stateOf (addToHistory "api"
       (setSessionStorage {| items := ∅; quotaExceeded := true |} Fixture.onPage)))
  = [WarnSaveHistory] /\
  restored
    (sessionStorage
       (stateOf (addToHistory "api"
          (setSessionStorage {| items := ∅; quotaExceeded := true |} Fixture.onPage)))) = [].
Proof. vm_compute. repeat split; reflexivity. Qed.

(** * Further properties of the class *)

(** ** The two filters together *)

Lemma filter_filter_and {A} (f g : A -> bool) (l : list A) :
  List.filter g (List.filter f l) = List.filter (fun x => f x && g x) l.
Proof.
  induction l as [|x l IH]; simpl; [reflexivity|].
  destruct (f x); simpl; [destruct (g x)|]; rewrite IH; reflexivity.
Qed.

Lemma filter_sublist_impl {A} (f g : A -> bool) (l : list A) :
  (forall x, f x = true -> g x = true) -> sublist (List.filter f l) (List.filter g l).
Proof.
  intros H. induction l as [|x l IH]; simpl; [constructor|].
  destruct (f x) eqn:Hf.
  - rewrite (H x Hf). apply sublist_skip. exact IH.
  - destruct (g x); [apply sublist_cons|]; exact IH.
Qed.

(** [filterTerms] as one pass over the dataset. *)
Lemma filterTerms_one_pass (s : State) (D : GlossaryData) :
  data s = Some D ->
  filterTerms s =
  List.filter (fun t =>
      (String.eqb (currentCategory s) "all" || String.eqb (category t) (currentCategory s)) &&
      (negb (Js.truthy (searchQuery s)) || queryTest (searchQuery s) t)) (terms D).
Proof.
  intros Hd. unfold filterTerms. rewrite Hd.
  assert (Hall : forall (f : GlossaryTerm -> bool) l,
             (forall t, f t = true) -> l = List.filter f l).
  { intros f l Hf. rewrite (List.filter_ext f (fun _ => true)) by exact Hf.
    symmetry. apply filter_true. }
  destruct (String.eqb (currentCategory s) "all"); simpl;
    destruct (Js.truthy (searchQuery s)); simpl.
  - reflexivity.
  - apply Hall. reflexivity.
  - apply filter_filter_and.
  - apply List.filter_ext. intros t. rewrite andb_true_r. reflexivity.
Qed.

Lemma filterTerms_ext (s s' : State) :
  data s' = data s -> currentCategory s' = currentCategory s ->
  searchQuery s' = searchQuery s -> filterTerms s' = filterTerms s.
Proof. unfold filterTerms. intros -> -> ->. reflexivity. Qed.

Lemma queryTest_matches (q : string) (t : GlossaryTerm) :
  Lowercased q ->
  negb (Js.truthy q) || queryTest q t = true <-> Matches q t.
Proof.
  intros Hlow. destruct (Js.truthy q) eqn:Ht; simpl.
  - apply (query_test_spec q t Hlow Ht).
  - destruct q; [|discriminate]. split; [|reflexivity].
    intros _. left. apply empty_query_occurs.
Qed.

(** X1. The category filter and the query filter act as a conjunction: with
    a lowercased query, a term is returned exactly when it is in the
    dataset, passes the category filter and matches the query; and
    whatever the filters, the result is the dataset's list with terms
    struck out. *)
Theorem filterTerms_members (s : State) (D : GlossaryData) :
  data s = Some D -> Lowercased (searchQuery s) ->
  (forall t, In t (filterTerms s) <->
             In t (terms D) /\
             (currentCategory s = "all" \/ category t = currentCategory s) /\
             Matches (searchQuery s) t) /\
  sublist (filterTerms s) (terms D).
Proof.
  intros Hd Hlow. rewrite (filterTerms_one_pass s D Hd). split; [|apply filter_sublist].
  intros t. rewrite List.filter_In, andb_true_iff, orb_true_iff, !String.eqb_eq.
  rewrite (queryTest_matches _ t Hlow). reflexivity.
Qed.

Lemma filterTerms_members_witness :
  Lowercased "api" /\
  forall t,
    In t (filterTerms (setSearchQuery "api" (setCurrentCategory "Architecture" Fixture.glossary))) <->
    In t (terms Fixture.dataset) /\
    ("Architecture" = "all" \/ category t = "Architecture") /\ Matches "api" t.
Proof.
  split; [reflexivity|].
  apply (filterTerms_members
           (setSearchQuery "api" (setCurrentCategory "Architecture" Fixture.glossary))
           Fixture.dataset); reflexivity.
Defined.

Lemma includes_inner (x pre q post : string) :
  Js.includes x (pre ++ q ++ post) = true -> Js.includes x q = true.
Proof.
  rewrite !includes_spec. intros (a & b & ->).
  exists (a ++ pre)%string, (post ++ b)%string.
  rewrite !append_assoc. reflexivity.
Qed.

Lemma queryTest_inner (pre q post : string) (t : GlossaryTerm) :
  queryTest (pre ++ q ++ post) t = true -> queryTest q t = true.
Proof.
  unfold queryTest. rewrite !orb_true_iff. intros [[H|H]|H].
  - left; left. exact (includes_inner _ _ _ _ H).
  - left; right. exact (includes_inner _ _ _ _ H).
  - right. destruct (fullForm t) as [f|]; [|discriminate].
    apply andb_true_iff in H as [Hf H]. rewrite Hf. exact (includes_inner _ _ _ _ H).
Qed.

(** X2. Narrowing never adds a term: a query that contains the old query
    returns a sublist of what the old query returned, and any category
    returns a sublist of what "all" returns. *)
Theorem filterTerms_narrows (s : State) (pre q post : string) (c : string) :
  sublist (filterTerms (setSearchQuery (pre ++ q ++ post) s))
          (filterTerms (setSearchQuery q s)) /\
  sublist (filterTerms (setCurrentCategory c s))
          (filterTerms (setCurrentCategory "all" s)).
Proof.
  destruct (data s) as [D|] eqn:Hd.
  - rewrite (filterTerms_one_pass (setSearchQuery (pre ++ q ++ post) s) D Hd),
            (filterTerms_one_pass (setSearchQuery q s) D Hd),
            (filterTerms_one_pass (setCurrentCategory c s) D Hd),
            (filterTerms_one_pass (setCurrentCategory "all" s) D Hd).
    simpl. split; apply filter_sublist_impl; intros t;
      rewrite !andb_true_iff, !orb_true_iff.
    + intros [Hc [Hq|Hq]]; (split; [exact Hc|]).
      * left. destruct q; [reflexivity|].
        destruct pre; simpl in Hq; discriminate.
      * destruct (Js.truthy q); [right|left; reflexivity].
        exact (queryTest_inner pre q post t Hq).
    + intros [_ Hq]. exact Hq.
  - unfold filterTerms. simpl. rewrite Hd. split; constructor.
Qed.

Example narrowing_example :
  List.map id (filterTerms (setSearchQuery "a" Fixture.glossary)) = ["api"; "ci-cd"; "docker"; "rest"] /\
  List.map id (filterTerms (setSearchQuery "ap" Fixture.glossary)) = ["api"; "docker"] /\
  List.map id (filterTerms (setSearchQuery "api" Fixture.glossary)) = ["api"].
Proof. vm_compute. repeat split; reflexivity. Qed.

(** X3. Typing [value] into the search box, in whatever letter case, leaves on
    the page exactly the terms of the current category in which [value]
    occurs, case aside, in name, definition or full form. *)
Theorem search_box_view (s : State) (D : GlossaryData) (value : string) :
  data s = Some D ->
  forall t, In t (filteredTerms (onSearchInput value s)) <->
            In t (terms D) /\
            (currentCategory s = "all" \/ category t = currentCategory s) /\
            Matches value t.
Proof.
  intros Hd t. unfold onSearchInput, filterAndRender.
  change (filteredTerms (setFilteredTerms ?l ?x)) with l.
  rewrite (filterTerms_one_pass (setSearchQuery (Js.toLowerCase value) s) D Hd). simpl.
  rewrite List.filter_In, andb_true_iff, orb_true_iff, !String.eqb_eq.
  rewrite (queryTest_matches _ t (toLowerCase_idempotent value)).
  assert (HM : Matches (Js.toLowerCase value) t <-> Matches value t).
  { unfold Matches. rewrite !occurs_lowered.
    split; intros [H|[H|(f & Hf & H)]]; auto;
      right; right; exists f; (split; [exact Hf|]); apply occurs_lowered; exact H. }
  rewrite HM. reflexivity.
Qed.

Lemma search_box_view_witness :
  data Fixture.glossary = Some Fixture.dataset /\
  forall t, In t (filteredTerms (onSearchInput "DoCkEr" Fixture.glossary)) <->
            In t (terms Fixture.dataset) /\
            ("all" = "all" \/ category t = "all") /\ Matches "DoCkEr" t.
Proof.
  split; [reflexivity|].
  apply (search_box_view Fixture.glossary Fixture.dataset "DoCkEr"). reflexivity.
Defined.

(** ** What the methods leave alone *)

Lemma addToHistory_keeps (x : string) (s : State) :
  data (stateOf (addToHistory x s)) = data s /\
  filteredTerms (stateOf (addToHistory x s)) = filteredTerms s /\
  currentCategory (stateOf (addToHistory x s)) = currentCategory s /\
  searchQuery (stateOf (addToHistory x s)) = searchQuery s.
Proof.
  rewrite addToHistory_cases. case_bool_decide; [simpl; tauto|].
  destruct (renderBreadcrumb_keeps
              (saveHistory (setNavigationHistory (navigationHistory s ++ [x]) s)))
    as (-> & -> & -> & -> & _).
  destruct (saveHistory_keeps (setNavigationHistory (navigationHistory s ++ [x]) s))
    as (-> & -> & -> & -> & _).
  simpl. tauto.
Qed.

Lemma clearHistory_keeps (s : State) :
  data (stateOf (clearHistory s)) = data s /\
  filteredTerms (stateOf (clearHistory s)) = filteredTerms s /\
  currentCategory (stateOf (clearHistory s)) = currentCategory s /\
  searchQuery (stateOf (clearHistory s)) = searchQuery s.
Proof.
  unfold clearHistory.
  destruct (renderBreadcrumb_keeps (saveHistory (setNavigationHistory [] s)))
    as (-> & -> & -> & -> & _).
  destruct (saveHistory_keeps (setNavigationHistory [] s)) as (-> & -> & -> & -> & _).
  simpl. tauto.
Qed.

Lemma updateTrail_keeps (x : string) (fromBreadcrumb : bool) (s : State) :
  data (stateOf (updateTrail x fromBreadcrumb s)) = data s /\
  filteredTerms (stateOf (updateTrail x fromBreadcrumb s)) = filteredTerms s /\
  currentCategory (stateOf (updateTrail x fromBreadcrumb s)) = currentCategory s /\
  searchQuery (stateOf (updateTrail x fromBreadcrumb s)) = searchQuery s.
Proof.
  unfold updateTrail. destruct fromBreadcrumb; [|apply addToHistory_keeps].
  destruct (negb _); [|simpl; tauto]. simpl.
  match goal with |- data (saveHistory ?x) = _ /\ _ =>
    destruct (saveHistory_keeps x) as (-> & -> & -> & -> & _) end.
  simpl. tauto.
Qed.

Lemma navigateToTerm_keeps_data (x : string) (fromBreadcrumb : bool) (s : State) :
  data (stateOf (navigateToTerm x fromBreadcrumb s)) = data s.
Proof.
  unfold navigateToTerm. destruct (data s) as [D|] eqn:Hd; [|exact Hd].
  destruct (findById x D); [|exact Hd].
  pose proof (updateTrail_keeps x fromBreadcrumb s) as (H1 & _).
  destruct (updateTrail x fromBreadcrumb s) as [s1|s1]; simpl in *.
  - destruct (renderBreadcrumb_keeps
                (filterAndRender (setCurrentCategory "all" (setSearchQuery EmptyString s1))))
      as (-> & _).
    simpl. congruence.
  - congruence.
Qed.

(** X4. The dataset is loaded once: no method call and no listener replaces
    or edits [data]; only a reload does. *)
Theorem data_fixed_between_reloads (s : State) (es : list Event) :
  Forall (fun e => forall page loaded, e <> Reload page loaded) es ->
  data (run s es) = data s.
Proof.
  revert s; induction es as [|e es IH]; intros s HF; [reflexivity|].
  inversion HF as [|? ? He HF']; subst. simpl. rewrite (IH _ HF').
  destruct e; simpl.
  - apply navigateToTerm_keeps_data.
  - apply addToHistory_keeps.
  - apply clearHistory_keeps.
  - reflexivity.
  - reflexivity.
  - exfalso. exact (He _ _ eq_refl).
Qed.

Lemma data_fixed_between_reloads_witness :
  data (run Fixture.onPage [CallNavigateToTerm "api" false; InputSearch "Doc";
                            ClickCategory "DevOps"; CallClearHistory;
                            CallAddToHistory "ghost"]) = Some Fixture.dataset.
Proof.
  apply (data_fixed_between_reloads Fixture.onPage).
  repeat constructor; intros page loaded; discriminate.
Defined.

(** ** The storage *)

Lemma saveHistory_other_keys (s : State) (k : string) :
  k <> historyKey ->
  getItem k (sessionStorage (saveHistory s)) = getItem k (sessionStorage s) /\
  quotaExceeded (sessionStorage (saveHistory s)) = quotaExceeded (sessionStorage s).
Proof.
  intros Hk. unfold saveHistory, setItem, getItem.
  destruct (quotaExceeded (sessionStorage s)) eqn:Hq; simpl; [auto|].
  rewrite lookup_insert_ne by congruence. auto.
Qed.

Lemma updateTrail_storage (x : string) (fromBreadcrumb : bool) (s : State) :
  sessionStorage (stateOf (updateTrail x fromBreadcrumb s)) = sessionStorage s \/
  exists h, sessionStorage (stateOf (updateTrail x fromBreadcrumb s)) =
            sessionStorage (saveHistory (setNavigationHistory h s)).
Proof.
  unfold updateTrail. destruct fromBreadcrumb.
  - destruct (negb _); [right; eexists; reflexivity | left; reflexivity].
  - rewrite addToHistory_cases. case_bool_decide; [left; reflexivity|].
    right. exists (navigationHistory s ++ [x]).
    apply renderBreadcrumb_keeps.
Qed.

(** How an event can change the storage: not at all, or by one
    [saveHistory]. *)
Lemma step_storage (s : State) (e : Event) :
  sessionStorage (step s e) = sessionStorage s \/
  exists h, sessionStorage (step s e) = sessionStorage (saveHistory (setNavigationHistory h s)).
Proof.
  destruct e; simpl.
  - unfold navigateToTerm. destruct (data s) as [D|]; [|left; reflexivity].
    destruct (findById termId D); [|left; reflexivity].
    pose proof (updateTrail_storage termId fromBreadcrumb s) as H.
    destruct (updateTrail termId fromBreadcrumb s) as [s1|s1]; simpl in *; [|exact H].
    destruct (renderBreadcrumb_keeps
                (filterAndRender (setCurrentCategory "all" (setSearchQuery EmptyString s1))))
      as (_ & _ & _ & _ & _ & -> & _).
    exact H.
  - exact (updateTrail_storage termId false s).
  - right. exists []. apply renderBreadcrumb_keeps.
  - left; reflexivity.
  - left; reflexivity.
  - left. unfold init, initEnd, initBegin.
    assert (H1 : sessionStorage (initializeHistory (setElements page (new_TechGlossary s))) =
                 sessionStorage s) by (rewrite initializeHistory_storage; reflexivity).
    destruct loaded as [d|]; [|exact H1].
    match goal with |- sessionStorage (stateOf (renderBreadcrumb ?x)) = _ =>
      destruct (renderBreadcrumb_keeps x) as (_ & _ & _ & _ & _ & -> & _) end.
    exact H1.
Qed.

(** X5. The class writes to one storage key only: whatever happens on the
    page, reloads included, every other key of the session storage keeps
    its value. *)
Theorem other_storage_keys_untouched (s : State) (es : list Event) (k : string) :
  k <> historyKey ->
  getItem k (sessionStorage (run s es)) = getItem k (sessionStorage s).
Proof.
  intros Hk. revert s; induction es as [|e es IH]; intros s; [reflexivity|].
  simpl. rewrite IH.
  destruct (step_storage s e) as [-> | [h ->]]; [reflexivity|].
  apply (saveHistory_other_keys (setNavigationHistory h s) k Hk).
Qed.

Lemma other_storage_keys_untouched_witness :
  getItem "theme"
    (sessionStorage
       (run (setSessionStorage {| items := {[ "theme" := "dark" ]}; quotaExceeded := false |}
                               Fixture.onPage)
            [CallNavigateToTerm "api" false; CallNavigateToTerm "rest" false;
             CallClearHistory])) = Some "dark".
Proof.
  rewrite (other_storage_keys_untouched
             (setSessionStorage {| items := {[ "theme" := "dark" ]}; quotaExceeded := false |}
                                Fixture.onPage)
             [CallNavigateToTerm "api" false; CallNavigateToTerm "rest" false; CallClearHistory]
             "theme"); [|discriminate].
  vm_compute. reflexivity.
Defined.

(** X6. When the storage refuses writes, no event changes it, and an append
    still extends the trail in memory, logging the failed save. *)
Theorem refused_writes (s : State) :
  quotaExceeded (sessionStorage s) = true ->
  (forall es, sessionStorage (run s es) = sessionStorage s) /\
  (forall x, last (navigationHistory s) <> Some x ->
     navigationHistory (stateOf (addToHistory x s)) = navigationHistory s ++ [x] /\
     console (stateOf (addToHistory x s)) = console s ++ [WarnSaveHistory]).
Proof.
  intros Hq.
  assert (Hsave : forall h s', sessionStorage s' = sessionStorage s ->
             saveHistory (setNavigationHistory h s') =
             log WarnSaveHistory (setNavigationHistory h s')).
  { intros h s' Hs. unfold saveHistory, setItem. simpl. rewrite Hs, Hq. reflexivity. }
  split.
  - intros es. revert s Hq Hsave; induction es as [|e es IH]; intros s Hq Hsave; [reflexivity|].
    assert (Hstep : sessionStorage (step s e) = sessionStorage s).
    { destruct (step_storage s e) as [H | [h H]]; [exact H|].
      rewrite H, (Hsave h s eq_refl). reflexivity. }
    simpl. rewrite IH; [exact Hstep | rewrite Hstep; exact Hq |].
    intros h s' Hs. unfold saveHistory, setItem. simpl. rewrite Hs, Hstep, Hq. reflexivity.
  - intros x Hlast. rewrite addToHistory_cases.
    rewrite bool_decide_eq_false_2 by exact Hlast.
    rewrite (Hsave _ s eq_refl).
    destruct (renderBreadcrumb_keeps
                (log WarnSaveHistory (setNavigationHistory (navigationHistory s ++ [x]) s)))
      as (_ & _ & _ & _ & -> & _ & ->).
    split; reflexivity.
Qed.

Lemma refused_writes_witness :
  navigationHistory
    (stateOf (addToHistory "api"
       (setSessionStorage {| items := ∅; quotaExceeded := true |} Fixture.onPage))) = [] ++ ["api"] /\
  console
    (stateOf (addToHistory "api"
       (setSessionStorage {| items := ∅; quotaExceeded := true |} Fixture.onPage)))
  = [] ++ [WarnSaveHistory].
Proof.
  apply (refused_writes (setSessionStorage {| items := ∅; quotaExceeded := true |} Fixture.onPage)
           eq_refl).
  discriminate.
Defined.

(** ** The view on the page *)

Lemma viewInSync_same (s s' : State) :
  data s' = data s -> filteredTerms s' = filteredTerms s ->
  currentCategory s' = currentCategory s -> searchQuery s' = searchQuery s ->
  ViewInSync s -> ViewInSync s'.
Proof.
  unfold ViewInSync. intros Hd Hf Hc Hq H.
  rewrite Hf, (filterTerms_ext s s' Hd Hc Hq). exact H.
Qed.

Lemma viewInSync_filterAndRender (s : State) : ViewInSync (filterAndRender s).
Proof. unfold ViewInSync, filterAndRender. simpl. apply filterTerms_ext; reflexivity. Qed.

Lemma viewInSync_renderBreadcrumb (s : State) :
  ViewInSync s -> ViewInSync (stateOf (renderBreadcrumb s)).
Proof. apply viewInSync_same; apply renderBreadcrumb_keeps. Qed.

Lemma viewInSync_init (page : Elements) (loaded : option GlossaryData) (s : State) :
  ViewInSync (init page loaded (new_TechGlossary s)).
Proof.
  unfold init, initEnd, initBegin. destruct loaded as [d|].
  - apply viewInSync_renderBreadcrumb, viewInSync_filterAndRender.
  - unfold initializeHistory. simpl.
    destruct (getItem historyKey (sessionStorage s)) as [stored|]; [|reflexivity].
    destruct (Js.truthy stored); [|reflexivity].
    destruct (JSON.parse stored); reflexivity.
Qed.

Lemma viewInSync_step (s : State) (e : Event) : ViewInSync s -> ViewInSync (step s e).
Proof.
  intros H. destruct e; simpl.
  - unfold navigateToTerm. destruct (data s) as [D|] eqn:Hd; [|exact H].
    destruct (findById termId D); [|apply (viewInSync_same s); auto].
    pose proof (updateTrail_keeps termId fromBreadcrumb s) as (H1 & H2 & H3 & H4).
    destruct (updateTrail termId fromBreadcrumb s) as [s1|s1]; simpl in *.
    + apply viewInSync_renderBreadcrumb, viewInSync_filterAndRender.
    + apply (viewInSync_same s); assumption.
  - apply (viewInSync_same s); try apply addToHistory_keeps. exact H.
  - apply (viewInSync_same s); try apply clearHistory_keeps. exact H.
  - apply viewInSync_filterAndRender.
  - apply viewInSync_filterAndRender.
  - apply viewInSync_init.
Qed.

(** X7. From the synchronous part of [init] on, the list on the page is
    at every moment the one [filterTerms] gives for the current data,
    category and query, whatever events arrive while the data is loading
    ([during]) and afterwards ([es]), and whether the load ends with a
    dataset or fails in transport. The first view after a successful load
    holds every term when, at that moment, the query is empty and the
    category is "all"; that is so in particular when no listener fired
    during the load. *)
Theorem view_always_in_sync (env : State) (page : Elements) (during : list Event)
        (loaded : option GlossaryData) (es : list Event) :
  ViewInSync (run (initEnd loaded (run (initBegin page (new_TechGlossary env)) during)) es) /\
  (forall d,
     searchQuery (run (initBegin page (new_TechGlossary env)) during) = EmptyString ->
     currentCategory (run (initBegin page (new_TechGlossary env)) during) = "all" ->
     filteredTerms (initEnd (Some d) (run (initBegin page (new_TechGlossary env)) during)) =
     terms d) /\
  (forall d, filteredTerms (init page (Some d) (new_TechGlossary env)) = terms d).
Proof.
  assert (Hrun : forall l s, ViewInSync s -> ViewInSync (run s l)).
  { induction l as [|e l IH]; intros s H; [exact H|]. apply IH, viewInSync_step, H. }
  assert (Hfirst : forall d s1,
             searchQuery s1 = EmptyString -> currentCategory s1 = "all" ->
             filteredTerms (initEnd (Some d) s1) = terms d).
  { intros d s1 Hq Hc. unfold initEnd.
    match goal with |- filteredTerms (stateOf (renderBreadcrumb ?x)) = _ =>
      destruct (renderBreadcrumb_keeps x) as (_ & -> & _) end.
    unfold filterAndRender, filterTerms. simpl. rewrite Hq, Hc. reflexivity. }
  split; [|split].
  - apply Hrun.
    assert (H1 : ViewInSync (run (initBegin page (new_TechGlossary env)) during)).
    { apply Hrun. exact (viewInSync_init page None env). }
    destruct loaded as [d|]; [|exact H1].
    unfold initEnd. apply viewInSync_renderBreadcrumb, viewInSync_filterAndRender.
  - intros d. apply Hfirst.
  - intros d. unfold init. apply Hfirst.
    + unfold initBegin, initializeHistory. simpl.
      destruct (getItem historyKey (sessionStorage env)) as [stored|]; [|reflexivity].
      destruct (Js.truthy stored); [|reflexivity].
      destruct (JSON.parse stored); reflexivity.
    + unfold initBegin, initializeHistory. simpl.
      destruct (getItem historyKey (sessionStorage env)) as [stored|]; [|reflexivity].
      destruct (Js.truthy stored); [|reflexivity].
      destruct (JSON.parse stored); reflexivity.
Qed.

Lemma view_always_in_sync_witness :
  filteredTerms
    (initEnd (Some Fixture.dataset)
       (run (initBegin Fixture.page (new_TechGlossary Fixture.onPage)) [CallClearHistory])) =
  terms Fixture.dataset.
Proof.
  destruct (view_always_in_sync Fixture.onPage Fixture.page [CallClearHistory] None [])
    as (_ & H & _).
  apply H; reflexivity.
Defined.

(** Text typed while the data is loading does filter the first view. *)
Example typed_while_loading :
  List.map id
    (filteredTerms
       (initEnd (Some Fixture.dataset)
          (run (initBegin Fixture.page (new_TechGlossary Fixture.onPage))
               [InputSearch "Docker"]))) = ["docker"].
Proof. vm_compute. reflexivity. Qed.

(** ** Related terms *)

Lemma nodup_map_inj {A B} (f : A -> B) (l : list A) (a b : A) :
  List.NoDup (List.map f l) -> In a l -> In b l -> f a = f b -> a = b.
Proof.
  induction l as [|x l IH]; intros Hnd Ha Hb Hf; [destruct Ha|].
  inversion Hnd as [|? ? Hx Hnd']; subst.
  destruct Ha as [->|Ha], Hb as [->|Hb].
  - reflexivity.
  - exfalso. apply Hx. rewrite Hf. apply List.in_map. exact Hb.
  - exfalso. apply Hx. rewrite <- Hf. apply List.in_map. exact Ha.
  - apply IH; assumption.
Qed.

Lemma findById_of_member (D : GlossaryData) (t : GlossaryTerm) :
  In t (terms D) -> is_Some (findById (id t) D).
Proof.
  intros Hin. unfold findById.
  destruct (List.find (fun t0 => String.eqb (id t0) (id t)) (terms D)) eqn:E; [eauto|].
  exfalso. pose proof (List.find_none _ _ E t Hin) as H. simpl in H.
  rewrite String.eqb_refl in H. discriminate.
Qed.

(** X8. [findTermIdByName] finds nothing exactly when no term carries the
    name, letter case aside; what it finds is the ID of a term carrying
    the name, and that ID resolves in the store; when the IDs of the store
    are pairwise different it resolves to a term carrying the name. *)
Theorem findTermIdByName_spec (s : State) (D : GlossaryData) (termName : string) :
  data s = Some D ->
  (findTermIdByName termName s = None <->
   forall t, In t (terms D) -> Js.toLowerCase (term t) <> Js.toLowerCase termName) /\
  (forall i, findTermIdByName termName s = Some i ->
     (exists t, In t (terms D) /\ id t = i /\
                Js.toLowerCase (term t) = Js.toLowerCase termName) /\
     is_Some (findById i D)) /\
  (List.NoDup (List.map id (terms D)) ->
   forall i, findTermIdByName termName s = Some i ->
     exists t, findById i D = Some t /\ Js.toLowerCase (term t) = Js.toLowerCase termName).
Proof.
  intros Hd. unfold findTermIdByName. rewrite Hd.
  assert (Hsome : forall i,
             match List.find (fun t => String.eqb (Js.toLowerCase (term t))
                                                  (Js.toLowerCase termName)) (terms D) with
             | Some t => Some (id t)
             | None => None
             end = Some i ->
             exists t, In t (terms D) /\ id t = i /\
                       Js.toLowerCase (term t) = Js.toLowerCase termName).
  { intros i H.
    destruct (List.find _ (terms D)) as [t|] eqn:E; [|discriminate].
    injection H as <-. apply List.find_some in E as [Hin Hn].
    apply String.eqb_eq in Hn. eauto. }
  split; [|split].
  - destruct (List.find _ (terms D)) as [t|] eqn:E.
    + split; [discriminate|]. intros H. exfalso.
      apply List.find_some in E as [Hin Hn]. apply String.eqb_eq in Hn.
      exact (H t Hin Hn).
    + split; [|reflexivity]. intros _ t Hin Hn.
      pose proof (List.find_none _ _ E t Hin) as H. simpl in H.
      apply String.eqb_neq in H. contradiction.
  - intros i H. destruct (Hsome i H) as (t & Hin & Hid & Hn).
    split; [eauto|]. rewrite <- Hid. apply findById_of_member. exact Hin.
  - intros Hnd i H. destruct (Hsome i H) as (t & Hin & Hid & Hn).
    destruct (findById_of_member D t Hin) as [t' Ht']. rewrite Hid in Ht'.
    exists t'. split; [exact Ht'|].
    destruct (findById_In i D t' Ht') as [Hin' Hid'].
    rewrite (nodup_map_inj id (terms D) t' t Hnd Hin' Hin); [exact Hn | congruence].
Qed.

Lemma findTermIdByName_spec_witness :
  exists t, findById "rest" Fixture.dataset = Some t /\
            Js.toLowerCase (term t) = Js.toLowerCase "rEsT".
Proof.
  destruct (findTermIdByName_spec Fixture.glossary Fixture.dataset "rEsT" eq_refl)
    as (_ & _ & H).
  apply H; [|reflexivity].
  vm_compute. repeat constructor; simpl; intuition discriminate.
Defined.



(** ** The breadcrumb on a trail that resolves *)

Lemma renderCrumbs_terms (ts : list GlossaryTerm) (i n : nat) :
  (i + length ts = n)%nat ->
  renderCrumbs i n (List.map JsTerm ts) = Some (trailCrumbs ts).
Proof.
  revert i; induction ts as [|t ts IH]; intros i Hn; [reflexivity|].
  simpl List.map. simpl renderCrumbs.
  rewrite (IH (S i)) by (simpl in Hn; lia).
  destruct ts as [|t' ts].
  - simpl in Hn. replace (i =? n - 1)%nat with true; [reflexivity|].
    symmetry. apply Nat.eqb_eq. lia.
  - simpl in Hn. replace (i =? n - 1)%nat with false; [reflexivity|].
    symmetry. apply Nat.eqb_neq. lia.
Qed.

Lemma toDisplayList_length (h : list string) (D : GlossaryData) :
  Forall (fun termId => is_Some (findById termId D)) h ->
  length (toDisplayList h D) = length h.
Proof.
  unfold toDisplayList. induction h as [|x h IH]; intros HF; [reflexivity|].
  inversion HF as [|? ? [t Ht] HF']; subst.
  change (length (match findById x D with
                  | Some t0 => t0 :: omap (fun termId => findById termId D) h
                  | None => omap (fun termId => findById termId D) h
                  end) = S (length h)).
  rewrite Ht. simpl length. rewrite IH by exact HF'. reflexivity.
Qed.

Lemma trailCrumbs_length (ts : list GlossaryTerm) : length (trailCrumbs ts) = length ts.
Proof.
  induction ts as [|t ts IH]; [reflexivity|].
  destruct ts as [|t' ts]; [reflexivity|].
  change (S (length (trailCrumbs (t' :: ts))) = S (length (t' :: ts))).
  rewrite IH. reflexivity.
Qed.

Lemma breadcrumbTerms_cases (s : State) :
  TrailResolves s ->
  exists ts, breadcrumbTerms s = List.map JsTerm ts /\
             (forall D, data s = Some D -> ts = toDisplayList (navigationHistory s) D /\
                                           length ts = length (navigationHistory s)).
Proof.
  intros HR. destruct (data s) as [D|] eqn:Hd.
  - exists (toDisplayList (navigationHistory s) D). split.
    + apply breadcrumbTerms_resolving; [exact Hd | exact (HR D Hd)].
    + intros D' [= <-]. split; [reflexivity|].
      apply toDisplayList_length. exact (HR D Hd).
  - exists []. split; [|discriminate].
    unfold breadcrumbTerms. rewrite Hd.
    induction (navigationHistory s) as [|x h IH]; [reflexivity | exact IH].
Qed.

Lemma renderBreadcrumb_returns (s : State) :
  TrailResolves s -> returns (renderBreadcrumb s) = true.
Proof.
  intros HR. unfold renderBreadcrumb.
  destruct (breadcrumbNav (elements s)); [|reflexivity].
  destruct (breadcrumbItems (elements s)) as [shown|]; [|reflexivity].
  destruct (length (navigationHistory s) =? 0)%nat; [reflexivity|].
  cbv zeta.
  match goal with |- context [breadcrumbTerms ?x] =>
    destruct (breadcrumbTerms_cases x) as (ts & -> & _); [exact HR|] end.
  rewrite length_map, renderCrumbs_terms by reflexivity. reflexivity.
Qed.

(** X10. On a page with both breadcrumb elements and a trail whose IDs all
    resolve, [renderBreadcrumb] returns; an empty trail hides the
    breadcrumb, and a trail with entries shows it and writes one item per
    entry in trail order: the text of each is the escaped name of the
    entry's term, the last is the current item and the others are links
    whose [data-term-id] is written with the term's [id] as it is, not
    escaped. *)
Theorem renderBreadcrumb_shape (s : State) (D : GlossaryData) (nav : bool)
        (shown : list Crumb) :
  data s = Some D -> TrailResolves s ->
  breadcrumbNav (elements s) = Some nav -> breadcrumbItems (elements s) = Some shown ->
  returns (renderBreadcrumb s) = true /\
  (navigationHistory s = [] ->
   elements (stateOf (renderBreadcrumb s)) =
     {| breadcrumbNav := Some true; breadcrumbItems := Some shown |}) /\
  (navigationHistory s <> [] ->
   elements (stateOf (renderBreadcrumb s)) =
     {| breadcrumbNav := Some false;
        breadcrumbItems := Some (trailCrumbs (toDisplayList (navigationHistory s) D)) |} /\
   length (trailCrumbs (toDisplayList (navigationHistory s) D)) =
     length (navigationHistory s)).
Proof.
  intros Hd HR Hnav Hitems.
  split; [apply renderBreadcrumb_returns; exact HR|].
  unfold renderBreadcrumb. rewrite Hnav, Hitems. split.
  - intros ->. reflexivity.
  - intros Hne.
    assert (Hlen0 : (length (navigationHistory s) =? 0)%nat = false)
      by (destruct (navigationHistory s); [contradiction | reflexivity]).
    rewrite Hlen0. cbv zeta.
    rewrite (breadcrumbTerms_resolving
               (setElements {| breadcrumbNav := Some false; breadcrumbItems := Some shown |} s)
               D Hd (HR D Hd)).
    change (navigationHistory
              (setElements {| breadcrumbNav := Some false; breadcrumbItems := Some shown |} s))
      with (navigationHistory s).
    rewrite length_map, renderCrumbs_terms by reflexivity.
    split; [reflexivity|].
    rewrite trailCrumbs_length. apply toDisplayList_length. exact (HR D Hd).
Qed.

Lemma renderBreadcrumb_shape_witness :
  elements (stateOf (renderBreadcrumb (setNavigationHistory ["api"; "rest"] Fixture.onPage))) =
  {| breadcrumbNav := Some false;
     breadcrumbItems := Some [CrumbLink "api" "API"; CrumbCurrent "REST"] |}.
Proof.
  assert (HR : TrailResolves (setNavigationHistory ["api"; "rest"] Fixture.onPage))
    by (intros D [= <-]; repeat constructor; eexists; reflexivity).
  destruct (renderBreadcrumb_shape (setNavigationHistory ["api"; "rest"] Fixture.onPage)
              Fixture.dataset true [] eq_refl HR eq_refl eq_refl) as (_ & _ & H).
  destruct H as [H _]; [discriminate | exact H].
Defined.

(** ** A session on the page *)

Lemma trailResolves_same (s s' : State) :
  data s' = data s -> navigationHistory s' = navigationHistory s ->
  TrailResolves s -> TrailResolves s'.
Proof. unfold TrailResolves. intros -> ->. tauto. Qed.

Lemma trailResolves_saveHistory (h : list string) (s : State) :
  (forall D, data s = Some D -> Forall (fun termId => is_Some (findById termId D)) h) ->
  TrailResolves (saveHistory (setNavigationHistory h s)).
Proof.
  intros H D Hd.
  destruct (saveHistory_keeps (setNavigationHistory h s)) as (Hd' & _ & _ & _ & -> & _).
  rewrite Hd' in Hd. exact (H D Hd).
Qed.

Lemma updateTrail_resolving (x : string) (fromBreadcrumb : bool) (s : State) :
  TrailResolves s ->
  (forall D, data s = Some D -> is_Some (findById x D)) ->
  TrailResolves (stateOf (updateTrail x fromBreadcrumb s)) /\
  returns (updateTrail x fromBreadcrumb s) = true.
Proof.
  intros HR Hx. unfold updateTrail. destruct fromBreadcrumb.
  - destruct (negb _); [|auto]. split; [|reflexivity]. simpl.
    apply trailResolves_saveHistory. intros D Hd.
    unfold slice. apply Forall_take, Forall_drop. exact (HR D Hd).
  - rewrite addToHistory_cases. case_bool_decide; [auto|].
    assert (H1 : TrailResolves
                   (saveHistory (setNavigationHistory (navigationHistory s ++ [x]) s))).
    { apply trailResolves_saveHistory. intros D Hd.
      apply Forall_app. split; [exact (HR D Hd)|]. constructor; [exact (Hx D Hd) | constructor]. }
    split; [|apply renderBreadcrumb_returns; exact H1].
    revert H1. apply trailResolves_same; apply renderBreadcrumb_keeps.
Qed.

Lemma navigateToTerm_resolving (x : string) (fromBreadcrumb : bool) (s : State) :
  TrailResolves s ->
  TrailResolves (stateOf (navigateToTerm x fromBreadcrumb s)) /\
  returns (navigateToTerm x fromBreadcrumb s) = true.
Proof.
  intros HR. unfold navigateToTerm.
  destruct (data s) as [D|] eqn:Hd; [|auto].
  destruct (findById x D) as [t|] eqn:Ht.
  - destruct (updateTrail_resolving x fromBreadcrumb s HR) as [H1 H2].
    { intros D' Hd'. rewrite Hd in Hd'. injection Hd' as <-. rewrite Ht. eauto. }
    destruct (updateTrail x fromBreadcrumb s) as [s1|s1]; [|discriminate].
    simpl in *.
    assert (H3 : TrailResolves
                   (filterAndRender (setCurrentCategory "all" (setSearchQuery EmptyString s1))))
      by (revert H1; apply trailResolves_same; reflexivity).
    split; [|apply renderBreadcrumb_returns; exact H3].
    revert H3. apply trailResolves_same; apply renderBreadcrumb_keeps.
  - split; [|reflexivity]. revert HR. apply trailResolves_same; reflexivity.
Qed.

Lemma trailResolves_step (s : State) (e : Event) :
  fromPage e = true -> TrailResolves s -> TrailResolves (step s e).
Proof.
  intros He HR. destruct e; try discriminate; simpl.
  - apply navigateToTerm_resolving. exact HR.
  - unfold clearHistory.
    assert (H1 : TrailResolves (saveHistory (setNavigationHistory [] s)))
      by (apply trailResolves_saveHistory; intros; constructor).
    revert H1. apply trailResolves_same; apply renderBreadcrumb_keeps.
  - revert HR. apply trailResolves_same; reflexivity.
  - revert HR. apply trailResolves_same; reflexivity.
Qed.

(** X11. While the page is driven by its own events on an unchanged dataset,
    starting from a trail whose IDs resolve (the empty trail of a first
    visit, say), every ID on the trail keeps resolving and no call of
    [navigateToTerm], [clearHistory] or [renderBreadcrumb] leaves by an
    exception. *)
Theorem page_session_never_raises (s : State) (es : list Event) :
  TrailResolves s -> Forall (fun e => fromPage e = true) es ->
  TrailResolves (run s es) /\
  (forall termId fromBreadcrumb,
     returns (navigateToTerm termId fromBreadcrumb (run s es)) = true) /\
  returns (clearHistory (run s es)) = true /\
  returns (renderBreadcrumb (run s es)) = true.
Proof.
  intros HR HF.
  assert (H : TrailResolves (run s es)).
  { revert s HR; induction HF as [|e es He _ IH]; intros s HR; [exact HR|].
    apply IH, trailResolves_step; assumption. }
  split; [exact H|]. split; [|split].
  - intros termId fb. apply navigateToTerm_resolving. exact H.
  - unfold clearHistory. apply renderBreadcrumb_returns, trailResolves_saveHistory.
    intros; constructor.
  - apply renderBreadcrumb_returns. exact H.
Qed.

Lemma page_session_never_raises_witness :
  returns (navigateToTerm "docker" false
             (run Fixture.onPage [CallNavigateToTerm "api" false; InputSearch "rest";
                                  CallNavigateToTerm "rest" false;
                                  CallNavigateToTerm "api" true])) = true.
Proof.
  assert (HR : TrailResolves Fixture.onPage) by (intros D _; constructor).
  assert (HF : Forall (fun e => fromPage e = true)
                 [CallNavigateToTerm "api" false; InputSearch "rest";
                  CallNavigateToTerm "rest" false; CallNavigateToTerm "api" true])
    by (repeat constructor).
  destruct (page_session_never_raises Fixture.onPage _ HR HF) as (_ & H & _).
  exact (H "docker" false).
Defined.

(** ** Clearing the trail *)

(** X12. [clearHistory] always returns, even on a trail that
    [renderBreadcrumb] cannot render: it leaves the trail empty, hides
    the breadcrumb when its elements are on the page, and, when the
    storage accepts the write, leaves the text of the empty trail under
    the history key, so that a reload restores the empty trail. *)
Theorem clearHistory_spec (s : State) :
  returns (clearHistory s) = true /\
  navigationHistory (stateOf (clearHistory s)) = [] /\
  (is_Some (breadcrumbNav (elements s)) -> is_Some (breadcrumbItems (elements s)) ->
   breadcrumbNav (elements (stateOf (clearHistory s))) = Some true) /\
  (quotaExceeded (sessionStorage s) = false ->
   getItem historyKey (sessionStorage (stateOf (clearHistory s))) = Some (JSON.stringify []) /\
   restored (sessionStorage (stateOf (clearHistory s))) = []).
Proof.
  unfold clearHistory.
  set (s1 := saveHistory (setNavigationHistory [] s)).
  assert (Hh : navigationHistory s1 = [])
    by (unfold s1; destruct (saveHistory_keeps (setNavigationHistory [] s))
          as (_ & _ & _ & _ & -> & _); reflexivity).
  assert (He : elements s1 = elements s)
    by (unfold s1; rewrite saveHistory_elements; reflexivity).
  split; [|split; [|split]].
  - unfold renderBreadcrumb. rewrite Hh.
    destruct (breadcrumbNav (elements s1)); [|reflexivity].
    destruct (breadcrumbItems (elements s1)); reflexivity.
  - rewrite renderBreadcrumb_keeps_trail. exact Hh.
  - intros [nav Hnav] [shown Hshown]. unfold renderBreadcrumb.
    rewrite Hh, He, Hnav, Hshown. reflexivity.
  - intros Hq.
    destruct (renderBreadcrumb_keeps s1) as (_ & _ & _ & _ & _ & -> & _).
    assert (Hg : getItem historyKey (sessionStorage s1) = Some (JSON.stringify [])).
    { unfold s1. destruct (saveHistory_storage (setNavigationHistory [] s))
        as [(_ & _ & H)|(Hq' & _)]; [exact H | simpl in Hq'; congruence]. }
    split; [exact Hg | apply restored_stringify; exact Hg].
Qed.

Lemma clearHistory_spec_witness :
  breadcrumbNav (elements (stateOf (clearHistory Fixture.afterDataChange))) = Some true /\
  restored (sessionStorage (stateOf (clearHistory Fixture.afterDataChange))) = [].
Proof.
  destruct (clearHistory_spec Fixture.afterDataChange) as (_ & _ & Hnav & Hst).
  split.
  - apply Hnav; vm_compute; eauto.
  - apply Hst. vm_compute. reflexivity.
Defined.

(** ** The shape of navigation on the trail *)

Lemma indexOfFrom_first (i : Z) (x : string) (pre post : list string) :
  ~ In x pre -> indexOfFrom i x (pre ++ x :: post) = (i + Z.of_nat (length pre))%Z.
Proof.
  revert i; induction pre as [|y pre IH]; intros i Hn; simpl.
  - rewrite String.eqb_refl. lia.
  - destruct (String.eqb_spec y x) as [->|_]; [exfalso; apply Hn; left; reflexivity|].
    rewrite IH by (intros H; apply Hn; right; exact H). lia.
Qed.

Lemma navigateToTerm_trail_cases (x : string) (fromBreadcrumb : bool) (s : State) :
  (exists D t, data s = Some D /\ findById x D = Some t /\
     navigationHistory (stateOf (navigateToTerm x fromBreadcrumb s)) =
     navigationHistory (stateOf (updateTrail x fromBreadcrumb s))) \/
  ((forall D, data s = Some D -> findById x D = None) /\
   navigationHistory (stateOf (navigateToTerm x fromBreadcrumb s)) = navigationHistory s).
Proof.
  destruct (data s) as [D|] eqn:Hd.
  - destruct (findById x D) as [t|] eqn:Ht.
    + left. exists D, t. split; [reflexivity|]. split; [exact Ht|].
      apply (navigateToTerm_trail x fromBreadcrumb s D t Hd Ht).
    + right. split; [intros D' [= <-]; exact Ht|].
      unfold navigateToTerm. rewrite Hd, Ht. reflexivity.
  - right. split; [discriminate|]. unfold navigateToTerm. rewrite Hd. reflexivity.
Qed.

(** X13. Navigation never rewrites the trail's past: a regular navigation
    leaves the old trail as a prefix of the new one, grown by one entry
    at most, and a breadcrumb navigation leaves a prefix of the old
    trail. *)
Theorem navigation_keeps_order (s : State) (termId : string) :
  navigationHistory s `prefix_of` navigationHistory (stateOf (navigateToTerm termId false s)) /\
  (length (navigationHistory (stateOf (navigateToTerm termId false s))) <=
     S (length (navigationHistory s)))%nat /\
  navigationHistory (stateOf (navigateToTerm termId true s)) `prefix_of` navigationHistory s.
Proof.
  split; [|split].
  - destruct (navigateToTerm_trail_cases termId false s) as [(D & t & _ & _ & ->)|[_ ->]];
      [|reflexivity].
    unfold updateTrail. rewrite addToHistory_trail.
    case_bool_decide; [reflexivity | apply prefix_app_r; reflexivity].
  - destruct (navigateToTerm_trail_cases termId false s) as [(D & t & _ & _ & ->)|[_ ->]];
      [|lia].
    unfold updateTrail. rewrite addToHistory_trail.
    case_bool_decide; [lia | rewrite length_app; simpl; lia].
  - destruct (navigateToTerm_trail_cases termId true s) as [(D & t & _ & _ & ->)|[_ ->]];
      [|reflexivity].
    rewrite truncation_trail. case_bool_decide; [|reflexivity].
    exists (drop (Z.to_nat (indexOf termId (navigationHistory s) + 1)) (navigationHistory s)).
    symmetry. apply take_drop.
Qed.

(** X14. Navigating to the same term a second time, by either route, leaves
    the trail as the first navigation left it. *)
Theorem navigateToTerm_twice (s : State) (termId : string) (fromBreadcrumb : bool) :
  navigationHistory
    (stateOf (navigateToTerm termId fromBreadcrumb
                (stateOf (navigateToTerm termId fromBreadcrumb s)))) =
  navigationHistory (stateOf (navigateToTerm termId fromBreadcrumb s)).
Proof.
  set (s1 := stateOf (navigateToTerm termId fromBreadcrumb s)).
  assert (Hd1 : data s1 = data s) by apply navigateToTerm_keeps_data.
  destruct (navigateToTerm_trail_cases termId fromBreadcrumb s1)
    as [(D & t & Hd & Ht & ->)|[_ ->]]; [|reflexivity].
  rewrite Hd1 in Hd.
  assert (H1 : navigationHistory s1 =
               navigationHistory (stateOf (updateTrail termId fromBreadcrumb s)))
    by apply (navigateToTerm_trail termId fromBreadcrumb s D t Hd Ht).
  destruct fromBreadcrumb.
  - rewrite truncation_trail. case_bool_decide as Hin1; [|reflexivity].
    rewrite truncation_trail in H1.
    case_bool_decide as Hin; rewrite list_elem_of_In in Hin.
    + destruct (indexOfFrom_found 0 termId _ Hin) as (pre & post & Hl & Hpre & Hi).
      unfold indexOf in H1. rewrite Hi, Hl in H1.
      replace (Z.to_nat (0 + Z.of_nat (length pre) + 1)) with (length pre + 1)%nat in H1 by lia.
      rewrite take_through in H1. rewrite H1. unfold indexOf.
      rewrite (indexOfFrom_first 0 termId pre [] Hpre).
      replace (Z.to_nat (0 + Z.of_nat (length pre) + 1)) with (length pre + 1)%nat by lia.
      apply take_through.
    + exfalso. apply Hin. rewrite <- H1. apply list_elem_of_In. exact Hin1.
  - unfold updateTrail in *. rewrite addToHistory_trail.
    rewrite bool_decide_eq_true_2; [reflexivity|].
    rewrite H1, addToHistory_trail. case_bool_decide as Hl; [exact Hl | apply last_snoc].
Qed.

(** ** The term counter *)

Lemma sublist_same_length {A} (l1 l2 : list A) :
  sublist l1 l2 -> length l1 = length l2 -> l1 = l2.
Proof.
  induction 1 as [|x l1 l2 _ IH|x l1 l2 Hs _]; intros Hlen; [reflexivity| |].
  - simpl in Hlen. rewrite IH by lia. reflexivity.
  - apply sublist_length in Hs. simpl in Hlen. lia.
Qed.

(** X15. With the view in step with the filters, the counter reads "n terms"
    (or "1 term") exactly when the filters hide nothing, and otherwise
    "k of n terms" with [k] the number of terms shown, smaller than [n];
    the noun follows the total, not the number shown. *)
Theorem termCount_tells_hidden (s : State) (D : GlossaryData) :
  data s = Some D -> ViewInSync s ->
  (filterTerms s = terms D ->
   termCountText s =
     (numberToString (length (terms D)) ++ " " ++
      (if (length (terms D) =? 1)%nat then "term" else "terms"))%string) /\
  (filterTerms s <> terms D ->
   (length (filterTerms s) < length (terms D))%nat /\
   termCountText s =
     (numberToString (length (filterTerms s)) ++ " of " ++
      numberToString (length (terms D)) ++ " " ++
      (if (length (terms D) =? 1)%nat then "term" else "terms"))%string).
Proof.
  intros Hd Hv. unfold termCountText. rewrite Hd, Hv.
  assert (Hsub : sublist (filterTerms s) (terms D))
    by (rewrite (filterTerms_one_pass s D Hd); apply filter_sublist).
  split.
  - intros ->. rewrite Nat.eqb_refl. reflexivity.
  - intros Hne.
    assert (Hlt : (length (filterTerms s) < length (terms D))%nat).
    { pose proof (sublist_length _ _ Hsub) as Hle.
      destruct (Nat.eq_dec (length (filterTerms s)) (length (terms D))) as [e|n]; [|lia].
      exfalso. apply Hne. apply sublist_same_length; assumption. }
    split; [exact Hlt|].
    replace (length (filterTerms s) =? length (terms D))%nat with false
      by (symmetry; apply Nat.eqb_neq; lia).
    reflexivity.
Qed.

Lemma termCount_tells_hidden_witness :
  termCountText (onSearchInput "docker" Fixture.glossary) = "1 of 4 terms" /\
  termCountText (onSearchInput "A" Fixture.glossary) = "4 terms".
Proof.
  destruct (termCount_tells_hidden (onSearchInput "docker" Fixture.glossary) Fixture.dataset
              eq_refl (viewInSync_filterAndRender _)) as [_ H1].
  destruct (termCount_tells_hidden (onSearchInput "A" Fixture.glossary) Fixture.dataset
              eq_refl (viewInSync_filterAndRender _)) as [H2 _].
  split.
  - destruct H1 as [_ H1]; [vm_compute; discriminate | exact H1].
  - apply H2. reflexivity.
Defined.

(** ** Escaping *)

Lemma list_ascii_app (a b : string) :
  list_ascii_of_string (a ++ b) = list_ascii_of_string a ++ list_ascii_of_string b.
Proof. induction a as [|c a IH]; simpl; [reflexivity | rewrite IH; reflexivity]. Qed.

Lemma escapeHtmlChar_cases (c : ascii) :
  (c = "&"%char /\ escapeHtmlChar c = "&amp;") \/
  (c = "<"%char /\ escapeHtmlChar c = "&lt;") \/
  (c = ">"%char /\ escapeHtmlChar c = "&gt;") \/
  (c = ascii_of_nat 160 /\ escapeHtmlChar c = "&nbsp;") \/
  (escapeHtmlChar c = String c EmptyString /\
   c <> "&"%char /\ c <> "<"%char /\ c <> ">"%char).
Proof.
  destruct c as [b0 b1 b2 b3 b4 b5 b6 b7].
  destruct b0, b1, b2, b3, b4, b5, b6, b7;
    first [ left; split; reflexivity
          | right; left; split; reflexivity
          | right; right; left; split; reflexivity
          | right; right; right; left; split; reflexivity
          | right; right; right; right; repeat split; discriminate ].
Qed.

Lemma escapeHtmlChar_cancel (c c' : ascii) (x y : string) :
  (escapeHtmlChar c ++ x)%string = (escapeHtmlChar c' ++ y)%string -> c = c' /\ x = y.
Proof.
  destruct (escapeHtmlChar_cases c) as [[-> ->]|[[-> ->]|[[-> ->]|[[-> ->]|(-> & H1 & _)]]]];
    destruct (escapeHtmlChar_cases c') as [[-> ->]|[[-> ->]|[[-> ->]|[[-> ->]|(-> & H2 & _)]]]];
    simpl; intros H; try discriminate H;
    try (injection H as H; subst; auto; congruence).
Qed.

(** X16. What [escapeHtml] returns holds no angle bracket, so it cannot open
    or close a tag; a text without [&], [<], [>] and no-break space comes
    back unchanged; and the escaping loses nothing: two texts with the
    same escaped form are the same text. *)
Theorem escapeHtml_safe (text : string) :
  ~ In "<"%char (list_ascii_of_string (escapeHtml text)) /\
  ~ In ">"%char (list_ascii_of_string (escapeHtml text)) /\
  ((forall c, In c (list_ascii_of_string text) ->
      c <> "&"%char /\ c <> "<"%char /\ c <> ">"%char /\ c <> ascii_of_nat 160) ->
   escapeHtml text = text) /\
  (forall text', escapeHtml text = escapeHtml text' -> text = text').
Proof.
  split; [|split; [|split]].
  - induction text as [|c r IH]; simpl; [tauto|].
    rewrite list_ascii_app, List.in_app_iff. intros [H|H]; [|exact (IH H)].
    destruct (escapeHtmlChar_cases c)
      as [[_ E]|[[_ E]|[[_ E]|[[_ E]|(E & _ & Hc & _)]]]]; rewrite E in H; simpl in H;
      intuition (try discriminate; congruence).
  - induction text as [|c r IH]; simpl; [tauto|].
    rewrite list_ascii_app, List.in_app_iff. intros [H|H]; [|exact (IH H)].
    destruct (escapeHtmlChar_cases c)
      as [[_ E]|[[_ E]|[[_ E]|[[_ E]|(E & _ & _ & Hc)]]]]; rewrite E in H; simpl in H;
      intuition (try discriminate; congruence).
  - induction text as [|c r IH]; intros H; [reflexivity|].
    simpl. rewrite IH by (intros c' Hc'; apply H; right; exact Hc').
    destruct (H c (or_introl eq_refl)) as (H1 & H2 & H3 & H4).
    destruct (escapeHtmlChar_cases c)
      as [[E _]|[[E _]|[[E _]|[[E _]|(E & _)]]]]; try contradiction.
    rewrite E. reflexivity.
  - induction text as [|c r IH]; intros text' H.
    + destruct text' as [|c' r']; [reflexivity|]. simpl in H.
      destruct (escapeHtmlChar_cases c')
        as [[_ E]|[[_ E]|[[_ E]|[[_ E]|(E & _)]]]]; rewrite E in H; discriminate.
    + destruct text' as [|c' r'].
      * simpl in H.
        destruct (escapeHtmlChar_cases c)
          as [[_ E]|[[_ E]|[[_ E]|[[_ E]|(E & _)]]]]; rewrite E in H; discriminate.
      * simpl in H. apply escapeHtmlChar_cancel in H as [-> H].
        rewrite (IH r' H). reflexivity.
Qed.

Example escapeHtml_example :
  escapeHtml "<b>R&D</b>" = "&lt;b&gt;R&amp;D&lt;/b&gt;".
Proof. reflexivity. Qed.

Lemma escapeHtml_safe_witness : escapeHtml "CI/CD" = "CI/CD".
Proof.
  destruct (escapeHtml_safe "CI/CD") as (_ & _ & H & _).
  apply H.
  simpl. intros c [<-|[<-|[<-|[<-|[<-|[]]]]]]; repeat split; discriminate.
Defined.

(** In the breadcrumb markup the name is escaped and the ID is not. *)
Example crumb_markup :
  trailCrumbs [Fixture.quoted; Fixture.api] =
  [CrumbLink (String "a" (String JSON.dquote "b")) "R&amp;D &lt;lab&gt;"; CrumbCurrent "API"].
Proof. reflexivity. Qed.
